(** * daemon/container_windows.go: launch-spec assembly and the
      isolation-conditional mount lifecycle of a Windows container.

    The Go code is embedded shallowly.  A Go [(value, error)] pair is a Rocq
    pair whose second component is [option error] ([None] is Go's [nil]);
    a nilable pointer is an [option]; the storage driver, whose [Get] and
    [Put] move reference counts, is a state machine over an abstract state
    [D] that is threaded through every call; the calls made to the
    collaborators are recorded in an event log, so that "how many times was
    this called, and in which order" can be stated. *)

From Stdlib Require Import ZArith Ascii String.
From stdpp Require Import base option list strings gmap.

Open Scope string_scope.
Open Scope list_scope.

(** ** Go's [strings] package: the one function used, [SplitN]. *)
Module gostrings.

(** [cut sep s]: the text before and after the first [sep] of [s], if any
    (Go's [Index] followed by the two slices [s[:m]] and [s[m+1:]]). *)
Fixpoint cut (sep : ascii) (s : string) : option (string * string) :=
  match s with
  | EmptyString => None
  | String a s' =>
      if decide (a = sep) then Some (EmptyString, s')
      else match cut sep s' with
           | Some (p, r) => Some (String a p, r)
           | None => None
           end
  end.

(** [SplitN s sep n] for a one-byte separator and [n >= 0]: at most [n]
    pieces, the last one holding the unsplit remainder; no piece for
    [n = 0]. *)
Fixpoint SplitN (s : string) (sep : ascii) (n : nat) : list string :=
  match n with
  | 0 => []
  | S n' =>
      match n' with
      | 0 => [s]
      | S _ =>
          match cut sep s with
          | None => [s]
          | Some (p, r) => p :: SplitN r sep n'
          end
      end
  end.

End gostrings.

(** ** Errors.  Go's [error] values: the ones a collaborator hands back
    ([errorString]) and the [derr] error codes with their arguments. *)
Module derr.

Inductive error : Type :=
| errorString (msg : string)
| ErrorCodeInvalidNetworkMode (mode : string)
| ErrorCodeGetGraph (imageID : string) (cause : error)
| ErrorCodeGetLayer (driver id : string) (cause : error)
| ErrorCodePutLayer (driver id : string) (cause : error)
| ErrorCodeGetLayerMetadata (cause : error).

End derr.
Export derr.

(** ** The image graph. *)
Module image.

Record Image : Type := { ID : string; Parent : string }.

End image.

Module graph.

(** The two graph operations the walk calls.  The graph is read, never
    written, by this file, so both are functions of their argument. *)
Record Graph : Type := {
  Get : string -> option image.Image * option error;
  GetParent : image.Image -> option image.Image * option error
}.

End graph.

(** ** The storage driver: an interface in Go, a record of operations over
    the driver's state here. *)
Module graphdriver.

Record Driver (D : Type) : Type := {
  String_ : D -> string;
  Get : D -> string -> string -> D * (string * option error);
  Put : D -> string -> D * option error;
  GetMetadata : D -> string -> D * (gmap string string * option error)
}.
Arguments String_ {D}.
Arguments Get {D}.
Arguments Put {D}.
Arguments GetMetadata {D}.

End graphdriver.

(** ** Container and host configuration. *)
Module portnat.

Record PortBinding : Type := { HostIP : string; HostPort : string }.

(** Go's [nat.PortMap], a [map[Port][]PortBinding] with string ports. *)
Abbreviation PortMap := (gmap string (list PortBinding)).

End portnat.

Module runconfig.

(** Modelled from the spec: the declaration of the isolation level and of
    its [IsHyperV] test is not part of this file; the spec gives it as an
    enumeration of two variants, process-isolated and hypervisor-isolated. *)
Inductive IsolationLevel : Type := ProcessIsolated | HypervisorIsolated.

Definition IsHyperV (i : IsolationLevel) : bool :=
  match i with
  | HypervisorIsolated => true
  | ProcessIsolated => false
  end.

Record Config : Type := {
  Env : list string;
  NetworkDisabled : bool;
  MacAddress : string;
  Tty : bool;
  User : string;
  WorkingDir : string;
  Hostname : string
}.

Record HostConfig : Type := {
  NetworkMode : string;
  PortBindings : portnat.PortMap;
  CPUShares : Z;
  Privileged : bool;
  ConsoleSize : Z * Z;
  Isolation : IsolationLevel
}.

Definition withNetworkMode (mode : string) (h : HostConfig) : HostConfig :=
  {| NetworkMode := mode;
     PortBindings := PortBindings h;
     CPUShares := CPUShares h;
     Privileged := Privileged h;
     ConsoleSize := ConsoleSize h;
     Isolation := Isolation h |}.

End runconfig.

(** ** What is handed to the execution driver. *)
Module execdriver.

Record NetworkInterface : Type := {
  MacAddress : string;
  Bridge : string;
  PortBindings : portnat.PortMap
}.

Record Network : Type := { Interface : option NetworkInterface }.

Record Resources : Type := { CPUShares : Z }.

Record ProcessConfig : Type := {
  Privileged : bool;
  Entrypoint : string;
  Arguments_ : list string;
  Tty : bool;
  User : string;
  ConsoleSize : Z * Z;
  Env : list string
}.

Record Command : Type := {
  ID : string;
  Rootfs : string;
  InitPath : string;
  WorkingDir : string;
  Network_ : option Network;
  MountLabel : string;
  Resources_ : option Resources;
  ProcessConfig_ : ProcessConfig;
  ProcessLabel : string;
  FirstStart : bool;
  LayerFolder : string;
  LayerPaths : list string;
  Hostname : string;
  Isolated : bool
}.

End execdriver.

(** ** The daemon a container points to, and the container itself. *)
Record Daemon (D : Type) : Type := {
  graph_ : graph.Graph;
  driver : graphdriver.Driver D;
  VirtualSwitchName : string   (* configStore.Bridge.VirtualSwitchName *)
}.
Arguments graph_ {D}.
Arguments driver {D}.
Arguments VirtualSwitchName {D}.

Record Container (D : Type) : Type := {
  ID : string;
  ImageID : string;
  Path : string;
  Args : list string;
  Config : runconfig.Config;
  hostConfig : runconfig.HostConfig;
  daemon : Daemon D;
  HasBeenStartedBefore : bool;
  command : option execdriver.Command
}.
Arguments ID {D}.
Arguments ImageID {D}.
Arguments Path {D}.
Arguments Args {D}.
Arguments Config {D}.
Arguments hostConfig {D}.
Arguments daemon {D}.
Arguments HasBeenStartedBefore {D}.
Arguments command {D}.

Definition withCommand {D} (cmd : option execdriver.Command) (c : Container D)
  : Container D :=
  {| ID := ID c; ImageID := ImageID c; Path := Path c; Args := Args c;
     Config := Config c; hostConfig := hostConfig c; daemon := daemon c;
     HasBeenStartedBefore := HasBeenStartedBefore c; command := cmd |}.

Definition withHostConfig {D} (h : runconfig.HostConfig) (c : Container D)
  : Container D :=
  {| ID := ID c; ImageID := ImageID c; Path := Path c; Args := Args c;
     Config := Config c; hostConfig := h; daemon := daemon c;
     HasBeenStartedBefore := HasBeenStartedBefore c; command := command c |}.

(** The container [c] with another network-mode string, all else equal. *)
Definition setNetworkMode {D} (mode : string) (c : Container D) : Container D :=
  withHostConfig (runconfig.withNetworkMode mode (hostConfig c)) c.

(** The methods of the common container that this file calls and does not
    define: they are taken as given. [Mount] and [Unmount] act on the
    driver's state and may update the container. *)
Record CommonContainer (D : Type) : Type := {
  rootfsPath : Container D -> string;
  getMountLabel : Container D -> string;
  getProcessLabel : Container D -> string;
  Mount : D -> Container D -> D * Container D * option error;
  Unmount : D -> Container D -> D * Container D * option error
}.
Arguments rootfsPath {D}.
Arguments getMountLabel {D}.
Arguments getProcessLabel {D}.
Arguments Mount {D}.
Arguments Unmount {D}.

(** ** The log of calls made to the collaborators. *)
Inductive Event : Type :=
| EvGet (id : string) (path : string) (err : option error)
| EvPut (id : string) (err : option error)
| EvGetMetadata (id : string) (err : option error)
| EvMount (err : option error)
| EvUnmount (err : option error)
| EvLogErrorf (format : string) (id : string) (err : error).

(** How a call of [populateCommand] ends: it returns (with the driver's new
    state, the calls it made, the container as it left it and its [error]
    result), it panics on an index out of range, or the fuel given to the
    model of its loop does not suffice. *)
Inductive Outcome (D : Type) : Type :=
| Returned (d : D) (log : list Event) (c : Container D) (err : option error)
| Panicked (msg : string)
| OutOfFuel.
Arguments Returned {D}.
Arguments Panicked {D}.
Arguments OutOfFuel {D}.

(** How the [for] loop of [populateCommand] ends: its condition fails
    ([LoopExit]), its body returns from the function ([LoopReturn]), or the
    fuel does not suffice. *)
Inductive LoopResult (D : Type) : Type :=
| LoopExit (d : D) (log : list Event) (layerPaths : list string)
| LoopReturn (d : D) (log : list Event) (e : error)
| LoopOutOfFuel.
Arguments LoopExit {D}.
Arguments LoopReturn {D}.
Arguments LoopOutOfFuel {D}.

Section Source.

Context {D : Type} (cc : CommonContainer D).

(** The loop
    [for i := img; i != nil && err == nil; i, err = graph.GetParent(i)].
    [i] and [err] are the loop's two variables; the [err] declared by
    [lp, err := driver.Get(...)] in the body is a different variable, local
    to the body.  One unit of fuel is one run of the body. *)
Fixpoint populateCommand_loop (fuel : nat) (dm : Daemon D) (d : D)
    (log : list Event) (i : option image.Image) (err : option error)
    (layerPaths : list string) {struct fuel} : LoopResult D :=
  match i, err with
  | Some img, None =>
      match fuel with
      | 0 => LoopOutOfFuel
      | S fuel' =>
          let id := image.ID img in
          let '(d1, (lp, e)) := graphdriver.Get (driver dm) d id "" in
          match e with
          | Some e =>
              LoopReturn d1 (log ++ [EvGet id lp (Some e)])
                (ErrorCodeGetLayer (graphdriver.String_ (driver dm) d1) id e)
          | None =>
              let layerPaths := layerPaths ++ [lp] in
              let '(d2, e) := graphdriver.Put (driver dm) d1 id in
              match e with
              | Some e =>
                  LoopReturn d2
                    (log ++ [EvGet id lp None; EvPut id (Some e)])
                    (ErrorCodePutLayer (graphdriver.String_ (driver dm) d2) id e)
              | None =>
                  let '(i', err') := graph.GetParent (graph_ dm) img in
                  populateCommand_loop fuel' dm d2
                    (log ++ [EvGet id lp None; EvPut id None])
                    i' err' layerPaths
              end
          end
      end
  | _, _ => LoopExit d log layerPaths
  end.

Definition populateCommand (fuel : nat) (d : D) (c : Container D)
    (env : list string) : Outcome D :=
  let en := {| execdriver.Interface := None |} in
  let parts :=
    gostrings.SplitN (runconfig.NetworkMode (hostConfig c)) ":"%char 2 in
  match parts !! 0%nat with
  | None => Panicked "index out of range"
  | Some mode =>
      let dispatched : error + execdriver.Network :=
        if decide (mode = "none") then inr en
        else if decide (mode = "default" \/ mode = "") then
          if negb (runconfig.NetworkDisabled (Config c)) then
            inr {| execdriver.Interface := Some
                     {| execdriver.MacAddress := runconfig.MacAddress (Config c);
                        execdriver.Bridge := VirtualSwitchName (daemon c);
                        execdriver.PortBindings :=
                          runconfig.PortBindings (hostConfig c) |} |}
          else inr en
        else inl (ErrorCodeInvalidNetworkMode
                    (runconfig.NetworkMode (hostConfig c))) in
      match dispatched with
      | inl e => Returned d [] c (Some e)
      | inr en =>
          let resources :=
            {| execdriver.CPUShares := runconfig.CPUShares (hostConfig c) |} in
          let processConfig :=
            {| execdriver.Privileged := runconfig.Privileged (hostConfig c);
               execdriver.Entrypoint := Path c;
               execdriver.Arguments_ := Args c;
               execdriver.Tty := runconfig.Tty (Config c);
               execdriver.User := runconfig.User (Config c);
               execdriver.ConsoleSize := runconfig.ConsoleSize (hostConfig c);
               execdriver.Env := env |} in
          let '(img, err) := graph.Get (graph_ (daemon c)) (ImageID c) in
          match err with
          | Some e => Returned d [] c (Some (ErrorCodeGetGraph (ImageID c) e))
          | None =>
              match populateCommand_loop fuel (daemon c) d [] img None [] with
              | LoopOutOfFuel => OutOfFuel
              | LoopReturn d1 log e => Returned d1 log c (Some e)
              | LoopExit d1 log layerPaths =>
                  let '(d2, (m, err)) :=
                    graphdriver.GetMetadata (driver (daemon c)) d1 (ID c) in
                  let log := log ++ [EvGetMetadata (ID c) err] in
                  match err with
                  | Some e =>
                      Returned d2 log c (Some (ErrorCodeGetLayerMetadata e))
                  | None =>
                      let layerFolder := default "" (m !! "dir") in
                      Returned d2 log
                        (withCommand (Some
                           {| execdriver.ID := ID c;
                              execdriver.Rootfs := rootfsPath cc c;
                              execdriver.InitPath := "/.dockerinit";
                              execdriver.WorkingDir :=
                                runconfig.WorkingDir (Config c);
                              execdriver.Network_ := Some en;
                              execdriver.MountLabel := getMountLabel cc c;
                              execdriver.Resources_ := Some resources;
                              execdriver.ProcessConfig_ := processConfig;
                              execdriver.ProcessLabel := getProcessLabel cc c;
                              execdriver.FirstStart :=
                                negb (HasBeenStartedBefore c);
                              execdriver.LayerFolder := layerFolder;
                              execdriver.LayerPaths := layerPaths;
                              execdriver.Hostname :=
                                runconfig.Hostname (Config c);
                              execdriver.Isolated :=
                                runconfig.IsHyperV
                                  (runconfig.Isolation (hostConfig c)) |}) c)
                        None
                  end
              end
          end
      end
  end.

(** [conditionalMountOnStart]: mounts unless the container is a Hyper-V
    one; the mount's error is the result. *)
Definition conditionalMountOnStart (d : D) (container : Container D)
  : D * list Event * Container D * option error :=
  if negb (runconfig.IsHyperV (runconfig.Isolation (hostConfig container)))
  then
    let '(d1, container1, err) := Mount cc d container in
    match err with
    | Some e => (d1, [EvMount (Some e)], container1, Some e)
    | None => (d1, [EvMount None], container1, None)
    end
  else (d, [], container, None).

(** [conditionalUnmountOnCleanup]: unmounts unless the container is a
    Hyper-V one; it has no result, an unmount error is logged. *)
Definition conditionalUnmountOnCleanup (d : D) (container : Container D)
  : D * list Event * Container D :=
  if negb (runconfig.IsHyperV (runconfig.Isolation (hostConfig container)))
  then
    let '(d1, container1, err) := Unmount cc d container in
    match err with
    | Some e =>
        (d1,
         [EvUnmount (Some e);
          EvLogErrorf "%v: Failed to umount filesystem: %v" (ID container1) e],
         container1)
    | None => (d1, [EvUnmount None], container1)
    end
  else (d, [], container).

End Source.

(** ** Vocabulary of the specification. *)

(** The segment of a network-mode string before its first colon (the whole
    string when it has none). *)
Fixpoint beforeColon (s : string) : string :=
  match s with
  | EmptyString => EmptyString
  | String a s' =>
      if decide (a = ":"%char) then EmptyString else String a (beforeColon s')
  end.

(** The recognised network modes. *)
Definition recognised (mode : string) : Prop :=
  beforeColon mode = "none" \/ beforeColon mode = "default"
  \/ beforeColon mode = "".

(** An image chain: from [i], following parent pointers that are fetched
    without error, the images of [l] are met in this order, leaf first, and
    the last one has no parent. *)
Inductive Chain (g : graph.Graph)
  : option image.Image -> list image.Image -> Prop :=
| Chain_root : Chain g None []
| Chain_link img p l :
    graph.GetParent g img = (p, None) ->
    Chain g p l ->
    Chain g (Some img) (img :: l).

(** A chain that breaks: the images of [l] are met in this order and
    fetching the parent of the last one fails with [e]. *)
Inductive BrokenChain (g : graph.Graph)
  : option image.Image -> list image.Image -> error -> Prop :=
| Broken_here img p e :
    graph.GetParent g img = (p, Some e) ->
    BrokenChain g (Some img) [img] e
| Broken_link img p l e :
    graph.GetParent g img = (p, None) ->
    BrokenChain g p l e ->
    BrokenChain g (Some img) (img :: l) e.

(** The images whose layer the loop visits, however the walk ends. *)
Inductive Visits (g : graph.Graph)
  : option image.Image -> option error -> list image.Image -> Prop :=
| Visits_nil : forall err, Visits g None err []
| Visits_err : forall i e, Visits g i (Some e) []
| Visits_step : forall img i' err' l,
    graph.GetParent g img = (i', err') ->
    Visits g i' err' l ->
    Visits g (Some img) None (img :: l).

(** The storage driver resolves the layers of [l] in order: each one is
    acquired, giving its path, and released, both without error. *)
Inductive Resolves {D : Type} (drv : graphdriver.Driver D)
  : D -> list image.Image -> list string -> list Event -> D -> Prop :=
| Resolves_nil d : Resolves drv d [] [] [] d
| Resolves_cons d img l lp d1 d2 paths evs d3 :
    graphdriver.Get drv d (image.ID img) "" = (d1, (lp, None)) ->
    graphdriver.Put drv d1 (image.ID img) = (d2, None) ->
    Resolves drv d2 l paths evs d3 ->
    Resolves drv d (img :: l) (lp :: paths)
      (EvGet (image.ID img) lp None :: EvPut (image.ID img) None :: evs) d3.

(** A log of the walk in which every acquire that succeeded is followed at
    once by a release of the same layer; a failed acquire or a failed
    release ends the log. *)
Inductive Paired : list Event -> Prop :=
| Paired_nil : Paired []
| Paired_get_failed id lp e : Paired [EvGet id lp (Some e)]
| Paired_put_failed id lp e : Paired [EvGet id lp None; EvPut id (Some e)]
| Paired_cons id lp rest :
    Paired rest -> Paired (EvGet id lp None :: EvPut id None :: rest).

(** Number of acquires of layer [id] that succeeded, and number of
    releases of it that were called. *)
Fixpoint acquired (id : string) (log : list Event) : nat :=
  match log with
  | [] => 0
  | EvGet id' _ None :: rest =>
      (if decide (id' = id) then 1 else 0) + acquired id rest
  | _ :: rest => acquired id rest
  end.

Fixpoint released (id : string) (log : list Event) : nat :=
  match log with
  | [] => 0
  | EvPut id' _ :: rest =>
      (if decide (id' = id) then 1 else 0) + released id rest
  | _ :: rest => released id rest
  end.

Definition isMount (e : Event) : bool :=
  match e with EvMount _ => true | _ => false end.

Definition isUnmount (e : Event) : bool :=
  match e with EvUnmount _ => true | _ => false end.

(** Number of mounts and of unmounts in a log. *)
Definition mounts (log : list Event) : nat := length (filter isMount log).
Definition unmounts (log : list Event) : nat := length (filter isUnmount log).

(** The outcome is a return: neither a panic nor a loop that is still
    running when the fuel is spent. *)
Definition returns {D} (o : Outcome D) : Prop :=
  match o with Returned _ _ _ _ => True | _ => False end.

(** The network descriptor of the command a run has stored, if any. *)
Definition networkOf {D} (o : Outcome D) : option (option execdriver.Network) :=
  match o with
  | Returned _ _ c None => execdriver.Network_ <$> command c
  | _ => None
  end.

(** Two outcomes that agree in everything but the container's own
    configuration: same driver state, same calls, same error, same stored
    command. *)
Definition sameResult {D} (o1 o2 : Outcome D) : Prop :=
  match o1, o2 with
  | Returned d1 log1 c1 e1, Returned d2 log2 c2 e2 =>
      d1 = d2 /\ log1 = log2 /\ e1 = e2 /\ command c1 = command c2
  | Panicked m1, Panicked m2 => m1 = m2
  | OutOfFuel, OutOfFuel => True
  | _, _ => False
  end.

(** The network descriptor of a recognised mode: no interface for [none]
    and when networking is disabled, otherwise an interface with the
    configured MAC address, the daemon's bridge and the port bindings. *)
Definition networkFor {D} (c : Container D) : execdriver.Network :=
  if decide (beforeColon (runconfig.NetworkMode (hostConfig c)) = "none")
  then {| execdriver.Interface := None |}
  else if runconfig.NetworkDisabled (Config c)
  then {| execdriver.Interface := None |}
  else {| execdriver.Interface := Some
            {| execdriver.MacAddress := runconfig.MacAddress (Config c);
               execdriver.Bridge := VirtualSwitchName (daemon c);
               execdriver.PortBindings :=
                 runconfig.PortBindings (hostConfig c) |} |}.

(** The launch specification of container [c] for a given network
    descriptor, layer folder and layer path list. *)
Definition launchSpec {D} (cc : CommonContainer D) (c : Container D)
    (env : list string) (en : execdriver.Network) (layerFolder : string)
    (layerPaths : list string) : execdriver.Command :=
  {| execdriver.ID := ID c;
     execdriver.Rootfs := rootfsPath cc c;
     execdriver.InitPath := "/.dockerinit";
     execdriver.WorkingDir := runconfig.WorkingDir (Config c);
     execdriver.Network_ := Some en;
     execdriver.MountLabel := getMountLabel cc c;
     execdriver.Resources_ :=
       Some {| execdriver.CPUShares := runconfig.CPUShares (hostConfig c) |};
     execdriver.ProcessConfig_ :=
       {| execdriver.Privileged := runconfig.Privileged (hostConfig c);
          execdriver.Entrypoint := Path c;
          execdriver.Arguments_ := Args c;
          execdriver.Tty := runconfig.Tty (Config c);
          execdriver.User := runconfig.User (Config c);
          execdriver.ConsoleSize := runconfig.ConsoleSize (hostConfig c);
          execdriver.Env := env |};
     execdriver.ProcessLabel := getProcessLabel cc c;
     execdriver.FirstStart := negb (HasBeenStartedBefore c);
     execdriver.LayerFolder := layerFolder;
     execdriver.LayerPaths := layerPaths;
     execdriver.Hostname := runconfig.Hostname (Config c);
     execdriver.Isolated :=
       runconfig.IsHyperV (runconfig.Isolation (hostConfig c)) |}.

(** What [populateCommand] does once the network mode is dispatched to the
    descriptor [en]: the graph lookup, the walk, the metadata lookup and
    the assembly. *)
Definition afterDispatch {D} (cc : CommonContainer D) (fuel : nat) (d : D)
    (c : Container D) (env : list string) (en : execdriver.Network)
  : Outcome D :=
  let '(img, err) := graph.Get (graph_ (daemon c)) (ImageID c) in
  match err with
  | Some e => Returned d [] c (Some (ErrorCodeGetGraph (ImageID c) e))
  | None =>
      match populateCommand_loop fuel (daemon c) d [] img None [] with
      | LoopOutOfFuel => OutOfFuel
      | LoopReturn d1 log e => Returned d1 log c (Some e)
      | LoopExit d1 log layerPaths =>
          let '(d2, (m, err)) :=
            graphdriver.GetMetadata (driver (daemon c)) d1 (ID c) in
          match err with
          | Some e =>
              Returned d2 (log ++ [EvGetMetadata (ID c) (Some e)]) c
                (Some (ErrorCodeGetLayerMetadata e))
          | None =>
              Returned d2 (log ++ [EvGetMetadata (ID c) None])
                (withCommand
                   (Some (launchSpec cc c env en (default "" (m !! "dir"))
                            layerPaths)) c)
                None
          end
      end
  end.

(** ** Concrete collaborators, on which the statements are run. *)
Module fixture.

(** A graph held as a list of images.  The empty identifier names no image;
    an image whose [Parent] is empty is a root. *)
Definition find (imgs : list image.Image) (id : string)
  : option image.Image * option error :=
  if String.eqb id "" then (None, None)
  else match List.find (fun i => String.eqb (image.ID i) id) imgs with
       | Some i => (Some i, None)
       | None => (None, Some (errorString "could not find image"))
       end.

Definition listGraph (imgs : list image.Image) : graph.Graph :=
  {| graph.Get := find imgs;
     graph.GetParent := fun img => find imgs (image.Parent img) |}.

Fixpoint dropOne (id : string) (held : list string) : list string :=
  match held with
  | [] => []
  | h :: rest => if String.eqb h id then rest else h :: dropOne id rest
  end.

(** A driver whose state is the list of layers currently held; [Get] and
    [Put] fail on the layers listed in [failGet] and [failPut]. *)
Definition refDriver (failGet failPut : list string)
  : graphdriver.Driver (list string) :=
  {| graphdriver.String_ := fun _ => "windowsfilter";
     graphdriver.Get := fun held id _ =>
       if existsb (String.eqb id) failGet
       then (held, ("", Some (errorString "layer is missing")))
       else (id :: held, ("C:\layers\" +:+ id, None));
     graphdriver.Put := fun held id =>
       if existsb (String.eqb id) failPut
       then (held, Some (errorString "layer is busy"))
       else (dropOne id held, None);
     graphdriver.GetMetadata := fun held id =>
       (held, ({[ "dir" := "C:\containers\" +:+ id ]}, None)) |}.

Definition methods (failMount failUnmount : bool)
  : CommonContainer (list string) :=
  {| rootfsPath := fun c => "C:\rootfs\" +:+ ID c;
     getMountLabel := fun _ => "";
     getProcessLabel := fun _ => "";
     Mount := fun held c =>
       if failMount then (held, c, Some (errorString "mount failed"))
       else (ID c :: held, c, None);
     Unmount := fun held c =>
       if failUnmount then (held, c, Some (errorString "unmount failed"))
       else (dropOne (ID c) held, c, None) |}.

Definition cc : CommonContainer (list string) := methods false false.

(** Three images: [app] on [runtime] on [base]. *)
Definition base : image.Image := {| image.ID := "base"; image.Parent := "" |}.
Definition runtime : image.Image :=
  {| image.ID := "runtime"; image.Parent := "base" |}.
Definition app : image.Image :=
  {| image.ID := "app"; image.Parent := "runtime" |}.

(** An image that is its own parent, and one whose parent is not in the
    graph. *)
Definition selfish : image.Image :=
  {| image.ID := "selfish"; image.Parent := "selfish" |}.
Definition orphan : image.Image :=
  {| image.ID := "orphan"; image.Parent := "lost" |}.

Definition images : list image.Image := [app; runtime; base; selfish; orphan].

Definition dm (failGet failPut : list string) : Daemon (list string) :=
  {| graph_ := listGraph images;
     driver := refDriver failGet failPut;
     VirtualSwitchName := "vswitch0" |}.

Definition config (disabled : bool) : runconfig.Config :=
  {| runconfig.Env := ["A=1"];
     runconfig.NetworkDisabled := disabled;
     runconfig.MacAddress := "00:15:5d:00:00:01";
     runconfig.Tty := false;
     runconfig.User := "";
     runconfig.WorkingDir := "C:\";
     runconfig.Hostname := "box" |}.

Definition host (mode : string) (iso : runconfig.IsolationLevel)
  : runconfig.HostConfig :=
  {| runconfig.NetworkMode := mode;
     runconfig.PortBindings :=
       {[ "80/tcp" := [ {| portnat.HostIP := ""; portnat.HostPort := "8080" |} ] ]};
     runconfig.CPUShares := 512;
     runconfig.Privileged := false;
     runconfig.ConsoleSize := (25, 80)%Z;
     runconfig.Isolation := iso |}.

Definition container (imageID mode : string) (disabled : bool)
    (iso : runconfig.IsolationLevel) (failGet failPut : list string)
  : Container (list string) :=
  {| ID := "c1";
     ImageID := imageID;
     Path := "cmd.exe";
     Args := ["/c"; "ver"];
     Config := config disabled;
     hostConfig := host mode iso;
     daemon := dm failGet failPut;
     HasBeenStartedBefore := false;
     command := None |}.

(** The containers of the runs below. *)
Definition appContainer : Container (list string) :=
  container "app" "default" false runconfig.ProcessIsolated [] [].
Definition appNoNetwork : Container (list string) :=
  container "app" "default" true runconfig.ProcessIsolated [] [].
Definition appNone : Container (list string) :=
  container "app" "none" true runconfig.ProcessIsolated [] [].
Definition appBogus : Container (list string) :=
  container "app" "bogus-mode" false runconfig.ProcessIsolated [] [].
Definition appMissingLayer : Container (list string) :=
  container "app" "none" false runconfig.ProcessIsolated ["runtime"] [].
Definition appHyperV : Container (list string) :=
  container "app" "default" false runconfig.HypervisorIsolated [] [].
Definition selfishContainer : Container (list string) :=
  container "selfish" "default" false runconfig.ProcessIsolated [] [].
Definition orphanContainer : Container (list string) :=
  container "orphan" "default" false runconfig.ProcessIsolated [] [].

End fixture.

(** ** The other functions of the file that the launch uses. *)

(** [setupLinkedContainers]: there are no links on Windows, the result is
    the nil slice and no error. *)
Definition setupLinkedContainers {D} (container : Container D)
  : list string * option error :=
  ([], None).

(** [createDaemonEnvironment]: nothing to link, the container's own
    environment whatever [linkedEnv] holds. *)
Definition createDaemonEnvironment {D} (container : Container D)
    (linkedEnv : list string) : list string :=
  runconfig.Env (Config container).

(** ** Further vocabulary. *)

(** Go's [strings.Join] for a one-byte separator. *)
Fixpoint Join (a : list string) (sep : ascii) : string :=
  match a with
  | [] => ""
  | x :: rest =>
      match rest with
      | [] => x
      | _ :: _ => x +:+ String sep (Join rest sep)
      end
  end.

(** From [i], following parents fetched without error through the images
    of [l], the walk arrives at [img]. *)
Inductive Reaches (g : graph.Graph)
  : option image.Image -> list image.Image -> image.Image -> Prop :=
| Reaches_here img : Reaches g (Some img) [] img
| Reaches_step i0 p l img :
    graph.GetParent g i0 = (p, None) ->
    Reaches g p l img ->
    Reaches g (Some i0) (i0 :: l) img.

(** Number of images of [l] that have the identifier [id]. *)
Definition occurrences (id : string) (l : list image.Image) : nat :=
  length (filter (fun img => image.ID img = id) l).

(** Two images that are each other's parent. *)
Module cyclefixture.

Definition ping : image.Image := {| image.ID := "ping"; image.Parent := "pong" |}.
Definition pong : image.Image := {| image.ID := "pong"; image.Parent := "ping" |}.

Definition dm : Daemon (list string) :=
  {| graph_ := fixture.listGraph [ping; pong];
     driver := fixture.refDriver [] [];
     VirtualSwitchName := "vswitch0" |}.

Definition pingContainer : Container (list string) :=
  {| ID := "c2";
     ImageID := "ping";
     Path := "cmd.exe";
     Args := [];
     Config := fixture.config false;
     hostConfig := fixture.host "none" runconfig.ProcessIsolated;
     daemon := dm;
     HasBeenStartedBefore := true;
     command := None |}.

End cyclefixture.

(** A driver that resolves every layer and answers the metadata lookup
    with [res]. *)
Module metafixture.

Definition metaDriver (res : gmap string string * option error)
  : graphdriver.Driver (list string) :=
  {| graphdriver.String_ := graphdriver.String_ (fixture.refDriver [] []);
     graphdriver.Get := graphdriver.Get (fixture.refDriver [] []);
     graphdriver.Put := graphdriver.Put (fixture.refDriver [] []);
     graphdriver.GetMetadata := fun held _ => (held, res) |}.

Definition baseContainer (res : gmap string string * option error)
  : Container (list string) :=
  {| ID := "c3";
     ImageID := "base";
     Path := "cmd.exe";
     Args := [];
     Config := fixture.config false;
     hostConfig := fixture.host "default" runconfig.ProcessIsolated;
     daemon := {| graph_ := fixture.listGraph fixture.images;
                  driver := metaDriver res;
                  VirtualSwitchName := "vswitch0" |};
     HasBeenStartedBefore := true;
     command := None |}.

End metafixture.

(** ** Runs of the source on the fixture. *)

Example run_app_default :
  exists cmd,
    populateCommand fixture.cc 3 []
      (fixture.container "app" "default" false runconfig.ProcessIsolated [] [])
      ["A=1"]
    = Returned []
        [EvGet "app" "C:\layers\app" None; EvPut "app" None;
         EvGet "runtime" "C:\layers\runtime" None; EvPut "runtime" None;
         EvGet "base" "C:\layers\base" None; EvPut "base" None;
         EvGetMetadata "c1" None]
        (withCommand (Some cmd)
           (fixture.container "app" "default" false runconfig.ProcessIsolated
              [] []))
        None
    /\ execdriver.LayerPaths cmd
       = ["C:\layers\app"; "C:\layers\runtime"; "C:\layers\base"]
    /\ execdriver.LayerFolder cmd = "C:\containers\c1".
Proof. eexists. split; [vm_compute; reflexivity | split; reflexivity]. Qed.

Example run_bogus_mode :
  populateCommand fixture.cc 0 []
    (fixture.container "app" "bogus-mode" false runconfig.ProcessIsolated [] [])
    []
  = Returned [] []
      (fixture.container "app" "bogus-mode" false runconfig.ProcessIsolated [] [])
      (Some (ErrorCodeInvalidNetworkMode "bogus-mode")).
Proof. reflexivity. Qed.

Example run_get_fails_mid_chain :
  populateCommand fixture.cc 3 []
    (fixture.container "app" "none" false runconfig.ProcessIsolated
       ["runtime"] [])
    []
  = Returned [] [EvGet "app" "C:\layers\app" None; EvPut "app" None;
                 EvGet "runtime" "" (Some (errorString "layer is missing"))]
      (fixture.container "app" "none" false runconfig.ProcessIsolated
         ["runtime"] [])
      (Some (ErrorCodeGetLayer "windowsfilter" "runtime"
               (errorString "layer is missing"))).
Proof. vm_compute. reflexivity. Qed.

(** ** The network-mode string. *)

Lemma cut_beforeColon (s : string) :
  match gostrings.cut ":"%char s with
  | Some (p, _) => p = beforeColon s
  | None => s = beforeColon s
  end.
Proof.
  induction s as [|a s IH]; simpl; [reflexivity|].
  destruct (decide (a = ":"%char)); [reflexivity|].
  destruct (gostrings.cut ":"%char s) as [[p r]|]; congruence.
Qed.

(** [parts[0]] always exists and is the segment before the first colon. *)
Lemma SplitN_first (s : string) :
  gostrings.SplitN s ":"%char 2 !! 0%nat = Some (beforeColon s).
Proof.
  unfold gostrings.SplitN. pose proof (cut_beforeColon s) as H.
  destruct (gostrings.cut ":"%char s) as [[p r]|]; simpl; congruence.
Qed.

Lemma beforeColon_cases (mode : string) :
  {beforeColon mode = "none"}
  + {beforeColon mode = "default" \/ beforeColon mode = ""}
  + {~ recognised mode}.
Proof.
  unfold recognised.
  destruct (decide (beforeColon mode = "none")); [left; left; assumption|].
  destruct (decide (beforeColon mode = "default" \/ beforeColon mode = ""));
    [left; right; assumption | right; tauto].
Qed.

(** ** The walk over the image graph. *)

Lemma Chain_Visits g i l : Chain g i l -> Visits g i None l.
Proof.
  induction 1 as [|img p l Hp _ IH]; [constructor|].
  eapply Visits_step; eassumption.
Qed.

Lemma BrokenChain_Visits g i l e : BrokenChain g i l e -> Visits g i None l.
Proof.
  induction 1 as [img p e Hp|img p l e Hp _ IH].
  - eapply Visits_step; [eassumption | constructor].
  - eapply Visits_step; eassumption.
Qed.

Lemma Visits_fun g i err l1 :
  Visits g i err l1 -> forall l2, Visits g i err l2 -> l1 = l2.
Proof.
  induction 1 as [err|i e|img i' err' l Hp _ IH]; intros l2 H2.
  - inversion H2; reflexivity.
  - inversion H2; reflexivity.
  - inversion H2 as [| |img' i2 err2 l' Hp' Hv]; subst.
    rewrite Hp in Hp'. injection Hp' as <- <-. f_equal. apply IH, Hv.
Qed.

Lemma Resolves_length {D} (drv : graphdriver.Driver D) d l paths evs d' :
  Resolves drv d l paths evs d' -> length paths = length l.
Proof. induction 1; simpl; congruence. Qed.

Lemma Resolves_Paired {D} (drv : graphdriver.Driver D) d l paths evs d' :
  Resolves drv d l paths evs d' -> Paired evs.
Proof. induction 1; constructor; assumption. Qed.

(** The acquires of a resolved chain, in order: the identifiers of its
    images, leaf first, each with the path the driver gave. *)
Lemma Resolves_order {D} (drv : graphdriver.Driver D) d l paths evs d' :
  Resolves drv d l paths evs d' ->
  Forall2 (fun img lp =>
             exists d0 d1,
               graphdriver.Get drv d0 (image.ID img) "" = (d1, (lp, None)))
          l paths.
Proof. induction 1; constructor; eauto. Qed.

Section Loop.

Context {D : Type} (dm : Daemon D).

Local Ltac step_driver d img :=
  destruct (graphdriver.Get (driver dm) d (image.ID img) "")
    as [?d [?lp [?e|]]] eqn:?HGet;
  [| destruct (graphdriver.Put (driver dm) _ (image.ID img))
       as [?d [?e|]] eqn:?HPut].

(** If the driver resolves the images the walk visits, the loop ends by its
    condition, having resolved them all in order. *)
Lemma loop_complete i err l :
  Visits (graph_ dm) i err l ->
  forall fuel d log acc paths evs d',
    Resolves (driver dm) d l paths evs d' ->
    length l <= fuel ->
    populateCommand_loop fuel dm d log i err acc
    = LoopExit d' (log ++ evs) (acc ++ paths).
Proof.
  induction 1 as [err|i e|img i' err' l Hp _ IH];
    intros fuel d log acc paths evs d' HR Hfuel.
  - inversion HR; subst. destruct fuel; simpl; by rewrite !app_nil_r.
  - inversion HR; subst. destruct fuel, i; simpl; by rewrite !app_nil_r.
  - inversion HR as [|d0 img0 l0 lp d1 d2 paths0 evs0 d3 HGet HPut HR']; subst.
    destruct fuel as [|fuel]; [simpl in Hfuel; lia|].
    simpl. rewrite HGet, HPut, Hp.
    rewrite (IH fuel d2 _ _ _ _ _ HR') by (simpl in Hfuel; lia).
    by rewrite <- !app_assoc.
Qed.

(** Conversely, a loop that ends by its condition has resolved exactly the
    images the walk visits. *)
Lemma loop_exit_inv fuel :
  forall d log i err acc d' log' paths',
    populateCommand_loop fuel dm d log i err acc = LoopExit d' log' paths' ->
    exists l paths evs,
      Visits (graph_ dm) i err l /\ Resolves (driver dm) d l paths evs d'
      /\ log' = log ++ evs /\ paths' = acc ++ paths.
Proof.
  induction fuel as [|fuel IH]; intros d log i err acc d' log' paths' H.
  - destruct i as [img|], err as [e|]; simpl in H; try discriminate;
      injection H as <- <- <-; exists [], [], [];
      rewrite !app_nil_r; repeat split; constructor.
  - destruct i as [img|], err as [e|]; simpl in H;
      try (injection H as <- <- <-; exists [], [], [];
           rewrite !app_nil_r; repeat split; constructor).
    step_driver d img; try discriminate.
    destruct (graph.GetParent (graph_ dm) img) as [i' err'] eqn:Hp.
    apply IH in H as (l & paths & evs & HV & HR & -> & ->).
    exists (img :: l), (lp :: paths),
      (EvGet (image.ID img) lp None :: EvPut (image.ID img) None :: evs).
    repeat split.
    + eapply Visits_step; eassumption.
    + eapply Resolves_cons; eassumption.
    + by rewrite <- app_assoc.
    + by rewrite <- app_assoc.
Qed.

(** What the loop adds to the log is paired, however it ends. *)
Lemma loop_exit_paired fuel :
  forall d log i err acc d' log' paths',
    populateCommand_loop fuel dm d log i err acc = LoopExit d' log' paths' ->
    exists evs, log' = log ++ evs /\ Paired evs.
Proof.
  intros d log i err acc d' log' paths' H.
  apply loop_exit_inv in H as (l & paths & evs & _ & HR & -> & _).
  exists evs. split; [reflexivity | eapply Resolves_Paired, HR].
Qed.

Lemma loop_return_paired fuel :
  forall d log i err acc d' log' e,
    populateCommand_loop fuel dm d log i err acc = LoopReturn d' log' e ->
    exists evs, log' = log ++ evs /\ Paired evs.
Proof.
  induction fuel as [|fuel IH]; intros d log i err acc d' log' e H.
  - destruct i as [img|], err as [e0|]; simpl in H; discriminate.
  - destruct i as [img|], err as [e0|]; simpl in H; try discriminate.
    step_driver d img.
    + injection H as <- <- <-. eexists; split; [reflexivity | constructor].
    + injection H as <- <- <-. eexists; split; [reflexivity | constructor].
    + destruct (graph.GetParent (graph_ dm) img) as [i' err'] eqn:Hp.
      apply IH in H as (evs & -> & HP).
      exists (EvGet (image.ID img) lp None :: EvPut (image.ID img) None :: evs).
      split; [by rewrite <- app_assoc | by constructor].
Qed.

(** The error a loop returns is the driver's: a failed acquire or a failed
    release. *)
Lemma loop_return_error fuel :
  forall d log i err acc d' log' e,
    populateCommand_loop fuel dm d log i err acc = LoopReturn d' log' e ->
    exists drv id cause,
      e = ErrorCodeGetLayer drv id cause \/ e = ErrorCodePutLayer drv id cause.
Proof.
  induction fuel as [|fuel IH]; intros d log i err acc d' log' e H.
  - destruct i as [img|], err as [e0|]; simpl in H; discriminate.
  - destruct i as [img|], err as [e0|]; simpl in H; try discriminate.
    step_driver d img.
    + injection H as <- <- <-. eauto.
    + injection H as <- <- <-. eauto.
    + destruct (graph.GetParent (graph_ dm) img) as [i' err'] eqn:Hp.
      eapply IH, H.
Qed.

(** On a walk that visits finitely many images, one unit of fuel per image
    is enough. *)
Lemma loop_terminates i err l :
  Visits (graph_ dm) i err l ->
  forall fuel d log acc,
    length l <= fuel ->
    populateCommand_loop fuel dm d log i err acc <> LoopOutOfFuel.
Proof.
  induction 1 as [err|i e|img i' err' l Hp _ IH]; intros fuel d log acc Hfuel.
  - destruct fuel; simpl; discriminate.
  - destruct fuel, i; simpl; discriminate.
  - destruct fuel as [|fuel]; [simpl in Hfuel; lia|]. simpl.
    step_driver d img; try discriminate.
    rewrite Hp. apply IH. simpl in Hfuel. lia.
Qed.

(** On an image that is its own parent, with a driver that never fails on
    it, no amount of fuel is enough. *)
Lemma loop_self_parent img :
  graph.GetParent (graph_ dm) img = (Some img, None) ->
  (forall d, exists d1 lp d2,
      graphdriver.Get (driver dm) d (image.ID img) "" = (d1, (lp, None))
      /\ graphdriver.Put (driver dm) d1 (image.ID img) = (d2, None)) ->
  forall fuel d log acc,
    populateCommand_loop fuel dm d log (Some img) None acc = LoopOutOfFuel.
Proof.
  intros Hp Hdrv. induction fuel as [|fuel IH]; intros d log acc;
    [reflexivity|].
  simpl. destruct (Hdrv d) as (d1 & lp & d2 & -> & ->). rewrite Hp. apply IH.
Qed.

End Loop.

(** ** The assembly as a whole. *)

Section Assembly.

Context {D : Type} (cc : CommonContainer D).

Lemma populateCommand_unrecognised fuel d (c : Container D) env :
  ~ recognised (runconfig.NetworkMode (hostConfig c)) ->
  populateCommand cc fuel d c env
  = Returned d [] c
      (Some (ErrorCodeInvalidNetworkMode (runconfig.NetworkMode (hostConfig c)))).
Proof.
  intros Hn. unfold populateCommand. rewrite SplitN_first. cbv zeta.
  unfold recognised in Hn.
  destruct (decide (beforeColon _ = "none")); [tauto|].
  destruct (decide (beforeColon _ = "default" \/ beforeColon _ = ""));
    [tauto | reflexivity].
Qed.

Lemma populateCommand_recognised fuel d (c : Container D) env :
  recognised (runconfig.NetworkMode (hostConfig c)) ->
  populateCommand cc fuel d c env = afterDispatch cc fuel d c env (networkFor c).
Proof.
  intros Hr. unfold populateCommand, afterDispatch, networkFor.
  rewrite SplitN_first. cbv zeta. unfold recognised in Hr.
  destruct (decide (beforeColon _ = "none")) as [Hnone|Hnone].
  - destruct (graph.Get _ _) as [img [e|]]; [reflexivity|].
    destruct (populateCommand_loop _ _ _ _ _ _ _); try reflexivity.
    destruct (graphdriver.GetMetadata _ _ _) as [d2 [m [e|]]]; reflexivity.
  - destruct (decide (beforeColon _ = "default" \/ beforeColon _ = ""));
      [|tauto].
    destruct (runconfig.NetworkDisabled (Config c)); simpl;
      (destruct (graph.Get _ _) as [img [e|]]; [reflexivity|]);
      (destruct (populateCommand_loop _ _ _ _ _ _ _); try reflexivity);
      destruct (graphdriver.GetMetadata _ _ _) as [d2 [m [e|]]]; reflexivity.
Qed.

End Assembly.

(** ** Counting acquires and releases. *)

Lemma acquired_app id (l1 l2 : list Event) :
  acquired id (l1 ++ l2) = acquired id l1 + acquired id l2.
Proof.
  induction l1 as [|ev l1 IH]; [reflexivity|].
  destruct ev as [id' lp [e|]|id' e|id' e|e|e|f id' e]; simpl; lia.
Qed.

Lemma released_app id (l1 l2 : list Event) :
  released id (l1 ++ l2) = released id l1 + released id l2.
Proof.
  induction l1 as [|ev l1 IH]; [reflexivity|].
  destruct ev as [id' lp [e|]|id' e|id' e|e|e|f id' e]; simpl; lia.
Qed.

Lemma Paired_balanced (evs : list Event) :
  Paired evs -> forall id, acquired id evs = released id evs.
Proof.
  induction 1 as [|id' lp e|id' lp e|id' lp rest _ IH]; intros id; simpl;
    try reflexivity.
  rewrite IH. lia.
Qed.

(** ** Every way [populateCommand] can return. *)

Section Returns.

Context {D : Type} (cc : CommonContainer D).

(** A return of [populateCommand] is one of three: an error before or in
    the walk, the container untouched; a failed metadata lookup after the
    walk, the container untouched; success, only the command replaced.  In
    each the walk's part of the log is paired. *)
Lemma populateCommand_returned_inv fuel d (c : Container D) env d' log c' err :
  populateCommand cc fuel d c env = Returned d' log c' err ->
  exists wlog,
    Paired wlog
    /\ ((log = wlog /\ c' = c /\ exists e, err = Some e)
        \/ (exists me, log = wlog ++ [EvGetMetadata (ID c) (Some me)]
                       /\ c' = c /\ err = Some (ErrorCodeGetLayerMetadata me))
        \/ (log = wlog ++ [EvGetMetadata (ID c) None] /\ err = None
            /\ exists cmd, c' = withCommand (Some cmd) c)).
Proof.
  intros Hrun.
  destruct (beforeColon_cases (runconfig.NetworkMode (hostConfig c)))
    as [Hr|Hn].
  - assert (Hr' : recognised (runconfig.NetworkMode (hostConfig c)))
      by (unfold recognised; tauto).
    rewrite (populateCommand_recognised cc _ _ _ _ Hr') in Hrun.
    unfold afterDispatch in Hrun.
    destruct (graph.Get _ _) as [img [e|]].
    { injection Hrun as <- <- <- <-. exists []. split; [constructor|].
      left. eauto. }
    destruct (populateCommand_loop _ _ _ _ _ _ _) as [d1 log1 paths1|d1 log1 e|]
      eqn:Hloop; [| |discriminate].
    + apply loop_exit_paired in Hloop as (evs & -> & HP). simpl in Hrun.
      destruct (graphdriver.GetMetadata _ _ _) as [d2 [m [e|]]];
        injection Hrun as <- <- <- <-; exists evs; (split; [exact HP|]).
      * right; left. eauto.
      * right; right. eauto.
    + apply loop_return_paired in Hloop as (evs & -> & HP). simpl in Hrun.
      injection Hrun as <- <- <- <-. exists evs. split; [exact HP|].
      left. eauto.
  - rewrite (populateCommand_unrecognised cc _ _ _ _ Hn) in Hrun.
    injection Hrun as <- <- <- <-. exists []. split; [constructor|].
    left. eauto.
Qed.

(** With a recognised mode the only errors are those of the graph lookup,
    of the driver's acquire and release, and of the metadata lookup. *)
Lemma populateCommand_recognised_errors fuel d (c : Container D) env d' log c' e :
  recognised (runconfig.NetworkMode (hostConfig c)) ->
  populateCommand cc fuel d c env = Returned d' log c' (Some e) ->
  (exists id cause, e = ErrorCodeGetGraph id cause)
  \/ (exists drv id cause, e = ErrorCodeGetLayer drv id cause)
  \/ (exists drv id cause, e = ErrorCodePutLayer drv id cause)
  \/ (exists cause, e = ErrorCodeGetLayerMetadata cause).
Proof.
  intros Hr Hrun.
  rewrite (populateCommand_recognised cc _ _ _ _ Hr) in Hrun.
  unfold afterDispatch in Hrun.
  destruct (graph.Get _ _) as [img [e0|]].
  { injection Hrun as <- <- <- <-. left. eauto. }
  destruct (populateCommand_loop _ _ _ _ _ _ _) as [d1 log1 paths1|d1 log1 e1|]
    eqn:Hloop; [| |discriminate].
  - destruct (graphdriver.GetMetadata _ _ _) as [d2 [m [e0|]]];
      [|discriminate].
    injection Hrun as <- <- <- <-. right; right; right. eauto.
  - injection Hrun as <- <- <- <-.
    apply loop_return_error in Hloop as (drv & id & cause & [->| ->]);
      [right; left | right; right; left]; eauto.
Qed.

(** A run without error has stored the descriptor of the mode. *)
Lemma populateCommand_success_network fuel d (c : Container D) env d' log c' :
  recognised (runconfig.NetworkMode (hostConfig c)) ->
  populateCommand cc fuel d c env = Returned d' log c' None ->
  exists cmd,
    command c' = Some cmd /\ execdriver.Network_ cmd = Some (networkFor c).
Proof.
  intros Hr Hrun.
  rewrite (populateCommand_recognised cc _ _ _ _ Hr) in Hrun.
  unfold afterDispatch in Hrun.
  destruct (graph.Get _ _) as [img [e0|]]; [discriminate|].
  destruct (populateCommand_loop _ _ _ _ _ _ _) as [d1 log1 paths1|d1 log1 e1|];
    try discriminate.
  destruct (graphdriver.GetMetadata _ _ _) as [d2 [m [e0|]]]; [discriminate|].
  injection Hrun as <- <- <-. eexists. split; reflexivity.
Qed.

End Returns.

(** ** Layer paths. *)

(** C1. For an image chain [l] of depth N from the container's leaf image
    (the leaf first, then each ancestor), with one unit of fuel per image:
    [populateCommand] returns; a run that returns no error has stored a
    command whose layer path list has exactly N entries, the paths the
    driver gave for the images of [l] in this same leaf-to-root order;
    when the driver resolves the chain and the metadata lookup succeeds the
    run does return no error, with these paths; and for the chain of depth
    0 this gives the empty list, not an error. *)
Theorem C1_layer_paths_leaf_to_root
    {D : Type} (cc : CommonContainer D) (fuel : nat) (d : D)
    (c : Container D) (env : list string)
    (leaf : option image.Image) (l : list image.Image) :
  graph.Get (graph_ (daemon c)) (ImageID c) = (leaf, None) ->
  Chain (graph_ (daemon c)) leaf l ->
  length l <= fuel ->
  returns (populateCommand cc fuel d c env)
  /\ (forall d' log c',
        populateCommand cc fuel d c env = Returned d' log c' None ->
        exists cmd evs d1,
          command c' = Some cmd
          /\ length (execdriver.LayerPaths cmd) = length l
          /\ Resolves (driver (daemon c)) d l (execdriver.LayerPaths cmd) evs d1
          /\ Forall2 (fun img lp =>
                        exists d0 d1,
                          graphdriver.Get (driver (daemon c)) d0 (image.ID img) ""
                          = (d1, (lp, None)))
                     l (execdriver.LayerPaths cmd))
  /\ (forall paths evs d1 d2 m,
        recognised (runconfig.NetworkMode (hostConfig c)) ->
        Resolves (driver (daemon c)) d l paths evs d1 ->
        graphdriver.GetMetadata (driver (daemon c)) d1 (ID c) = (d2, (m, None)) ->
        exists cmd,
          populateCommand cc fuel d c env
          = Returned d2 (evs ++ [EvGetMetadata (ID c) None])
              (withCommand (Some cmd) c) None
          /\ execdriver.LayerPaths cmd = paths)
  /\ (l = [] ->
      forall d2 m,
        recognised (runconfig.NetworkMode (hostConfig c)) ->
        graphdriver.GetMetadata (driver (daemon c)) d (ID c) = (d2, (m, None)) ->
        exists cmd,
          populateCommand cc fuel d c env
          = Returned d2 [EvGetMetadata (ID c) None] (withCommand (Some cmd) c) None
          /\ execdriver.LayerPaths cmd = []).
Proof.
  intros Hget Hchain Hfuel.
  pose proof (Chain_Visits _ _ _ Hchain) as Hvis.
  assert (Hsucc : forall paths evs d1 d2 m,
             recognised (runconfig.NetworkMode (hostConfig c)) ->
             Resolves (driver (daemon c)) d l paths evs d1 ->
             graphdriver.GetMetadata (driver (daemon c)) d1 (ID c)
             = (d2, (m, None)) ->
             exists cmd,
               populateCommand cc fuel d c env
               = Returned d2 (evs ++ [EvGetMetadata (ID c) None])
                   (withCommand (Some cmd) c) None
               /\ execdriver.LayerPaths cmd = paths).
  { intros paths evs d1 d2 m Hr HR Hm.
    rewrite (populateCommand_recognised cc _ _ _ _ Hr).
    unfold afterDispatch. rewrite Hget.
    rewrite (loop_complete _ _ _ _ Hvis fuel d [] [] paths evs d1 HR Hfuel).
    rewrite Hm. simpl. eexists. split; reflexivity. }
  split; [|split; [|split]].
  - destruct (beforeColon_cases (runconfig.NetworkMode (hostConfig c)))
      as [Hr|Hn].
    + assert (Hr' : recognised (runconfig.NetworkMode (hostConfig c)))
        by (unfold recognised; tauto).
      rewrite (populateCommand_recognised cc _ _ _ _ Hr').
      unfold afterDispatch. rewrite Hget.
      pose proof (loop_terminates _ _ _ _ Hvis fuel d [] [] Hfuel) as Hterm.
      destruct (populateCommand_loop _ _ _ _ _ _ _); [| exact I | congruence].
      destruct (graphdriver.GetMetadata _ _ _) as [d2 [m [e|]]]; exact I.
    + rewrite (populateCommand_unrecognised cc _ _ _ _ Hn). exact I.
  - intros d' log c' Hrun.
    destruct (beforeColon_cases (runconfig.NetworkMode (hostConfig c)))
      as [Hr|Hn];
      [| rewrite (populateCommand_unrecognised cc _ _ _ _ Hn) in Hrun;
         discriminate].
    assert (Hr' : recognised (runconfig.NetworkMode (hostConfig c)))
      by (unfold recognised; tauto).
    rewrite (populateCommand_recognised cc _ _ _ _ Hr') in Hrun.
    unfold afterDispatch in Hrun. rewrite Hget in Hrun.
    destruct (populateCommand_loop _ _ _ _ _ _ _) as [d1 log1 paths1| |] eqn:Hloop;
      try discriminate.
    destruct (graphdriver.GetMetadata _ _ _) as [d2 [m [e|]]];
      [discriminate|].
    injection Hrun as <- <- <-.
    apply loop_exit_inv in Hloop as (l' & paths & evs & HV & HR & _ & ->).
    rewrite <- (Visits_fun _ _ _ _ Hvis _ HV) in HR. simpl.
    eexists _, evs, d1. split; [reflexivity|]. simpl.
    split; [eapply Resolves_length, HR|].
    split; [exact HR | eapply Resolves_order, HR].
  - exact Hsucc.
  - intros -> d2 m Hr Hm.
    destruct (Hsucc [] [] d d2 m Hr (Resolves_nil _ _) Hm) as (cmd & Hrun & Hp).
    exists cmd. split; assumption.
Qed.

Lemma C1_layer_paths_leaf_to_root_witness :
  graph.Get (graph_ (daemon fixture.appContainer))
    (ImageID fixture.appContainer) = (Some fixture.app, None)
  /\ Chain (graph_ (daemon fixture.appContainer)) (Some fixture.app)
       [fixture.app; fixture.runtime; fixture.base]
  /\ 3 <= 3
  /\ forall d' log c',
       populateCommand fixture.cc 3 [] fixture.appContainer ["A=1"]
       = Returned d' log c' None ->
       exists cmd evs d1,
         command c' = Some cmd
         /\ length (execdriver.LayerPaths cmd) = 3
         /\ Resolves (driver (daemon fixture.appContainer)) []
              [fixture.app; fixture.runtime; fixture.base]
              (execdriver.LayerPaths cmd) evs d1
         /\ Forall2 (fun img lp =>
                       exists d0 d1,
                         graphdriver.Get (driver (daemon fixture.appContainer))
                           d0 (image.ID img) ""
                         = (d1, (lp, None)))
                    [fixture.app; fixture.runtime; fixture.base]
                    (execdriver.LayerPaths cmd).
Proof.
  assert (H1 : graph.Get (graph_ (daemon fixture.appContainer))
                 (ImageID fixture.appContainer)
               = (Some fixture.app, None)) by reflexivity.
  assert (H2 : Chain (graph_ (daemon fixture.appContainer)) (Some fixture.app)
                 [fixture.app; fixture.runtime; fixture.base]).
  { eapply Chain_link; [reflexivity|].
    eapply Chain_link; [reflexivity|].
    eapply Chain_link; [reflexivity|]. constructor. }
  assert (H3 : 3 <= 3) by lia.
  split; [exact H1|]. split; [exact H2|]. split; [exact H3|].
  exact (proj1 (proj2
    (C1_layer_paths_leaf_to_root fixture.cc 3 [] fixture.appContainer ["A=1"]
       _ _ H1 H2 H3))).
Defined.

(** ** Acquire and release. *)

(** C2. Whether the walk completes ([LoopExit]) or aborts mid-chain
    ([LoopReturn]), its log is paired: every acquire of a layer that
    succeeded is followed at once, before the next ancestor is visited and
    before the walk ends, by one release of that layer; so for every layer
    the acquires that succeeded are as many as the releases.  The same
    holds of every return of [populateCommand], whose log is the walk's,
    followed by at most the metadata lookup. *)
Theorem C2_acquire_release_paired
    {D : Type} (cc : CommonContainer D) (fuel : nat) (d : D)
    (c : Container D) (env : list string)
    (i : option image.Image) (err : option error) (acc : list string) :
  (forall d' log paths,
      populateCommand_loop fuel (daemon c) d [] i err acc = LoopExit d' log paths ->
      Paired log /\ forall id, acquired id log = released id log)
  /\ (forall d' log e,
        populateCommand_loop fuel (daemon c) d [] i err acc = LoopReturn d' log e ->
        Paired log /\ forall id, acquired id log = released id log)
  /\ (forall d' log c' e,
        populateCommand cc fuel d c env = Returned d' log c' e ->
        (exists wlog, Paired wlog
           /\ (log = wlog \/ exists me, log = wlog ++ [EvGetMetadata (ID c) me]))
        /\ forall id, acquired id log = released id log).
Proof.
  split; [|split].
  - intros d' log paths H. apply loop_exit_paired in H as (evs & -> & HP).
    simpl. split; [exact HP | apply Paired_balanced, HP].
  - intros d' log e H. apply loop_return_paired in H as (evs & -> & HP).
    simpl. split; [exact HP | apply Paired_balanced, HP].
  - intros d' log c' e H.
    apply populateCommand_returned_inv in H
      as (wlog & HP & [(-> & _)|[(me & -> & _)|(-> & _)]]).
    + split; [exists wlog; tauto | apply Paired_balanced, HP].
    + split; [exists wlog; eauto|]. intros id.
      rewrite acquired_app, released_app, (Paired_balanced _ HP id).
      reflexivity.
    + split; [exists wlog; eauto|]. intros id.
      rewrite acquired_app, released_app, (Paired_balanced _ HP id).
      reflexivity.
Qed.

Lemma C2_acquire_release_paired_witness :
  populateCommand fixture.cc 3 [] fixture.appMissingLayer []
  = Returned []
      [EvGet "app" "C:\layers\app" None; EvPut "app" None;
       EvGet "runtime" "" (Some (errorString "layer is missing"))]
      fixture.appMissingLayer
      (Some (ErrorCodeGetLayer "windowsfilter" "runtime"
               (errorString "layer is missing")))
  /\ (exists wlog, Paired wlog
        /\ ([EvGet "app" "C:\layers\app" None; EvPut "app" None;
             EvGet "runtime" "" (Some (errorString "layer is missing"))] = wlog
            \/ exists me,
                 [EvGet "app" "C:\layers\app" None; EvPut "app" None;
                  EvGet "runtime" "" (Some (errorString "layer is missing"))]
                 = wlog ++ [EvGetMetadata (ID fixture.appMissingLayer) me]))
  /\ forall id,
       acquired id
         [EvGet "app" "C:\layers\app" None; EvPut "app" None;
          EvGet "runtime" "" (Some (errorString "layer is missing"))]
       = released id
           [EvGet "app" "C:\layers\app" None; EvPut "app" None;
            EvGet "runtime" "" (Some (errorString "layer is missing"))].
Proof.
  assert (H : populateCommand fixture.cc 3 [] fixture.appMissingLayer []
              = Returned []
                  [EvGet "app" "C:\layers\app" None; EvPut "app" None;
                   EvGet "runtime" "" (Some (errorString "layer is missing"))]
                  fixture.appMissingLayer
                  (Some (ErrorCodeGetLayer "windowsfilter" "runtime"
                           (errorString "layer is missing"))))
    by (vm_compute; reflexivity).
  split; [exact H|].
  exact (proj2 (proj2
    (C2_acquire_release_paired fixture.cc 3 [] fixture.appMissingLayer []
       None None [])) _ _ _ _ H).
Defined.

(** ** The network mode. *)

(** C3. When the segment of the network mode before its first colon is
    not [none], [default] or empty, [populateCommand] returns the
    [InvalidNetworkMode] error carrying the network-mode string, having
    called nothing and changed nothing; and with a recognised mode it
    never returns an [InvalidNetworkMode] error. *)
Theorem C3_invalid_network_mode
    {D : Type} (cc : CommonContainer D) (fuel : nat) (d : D)
    (c : Container D) (env : list string) :
  (~ recognised (runconfig.NetworkMode (hostConfig c)) ->
   populateCommand cc fuel d c env
   = Returned d [] c
       (Some (ErrorCodeInvalidNetworkMode (runconfig.NetworkMode (hostConfig c)))))
  /\ (recognised (runconfig.NetworkMode (hostConfig c)) ->
      forall d' log c' s,
        populateCommand cc fuel d c env
        <> Returned d' log c' (Some (ErrorCodeInvalidNetworkMode s))).
Proof.
  split.
  - apply populateCommand_unrecognised.
  - intros Hr d' log c' s Hrun.
    destruct (populateCommand_recognised_errors cc _ _ _ _ _ _ _ _ Hr Hrun)
      as [(id & cause & H)|[(drv & id & cause & H)|[(drv & id & cause & H)
         |(cause & H)]]]; discriminate.
Qed.

Lemma C3_invalid_network_mode_witness :
  ~ recognised (runconfig.NetworkMode (hostConfig fixture.appBogus))
  /\ populateCommand fixture.cc 0 [] fixture.appBogus []
     = Returned [] [] fixture.appBogus
         (Some (ErrorCodeInvalidNetworkMode "bogus-mode")).
Proof.
  assert (H : ~ recognised (runconfig.NetworkMode (hostConfig fixture.appBogus))).
  { unfold recognised. simpl. intros [H|[H|H]]; discriminate. }
  split; [exact H|].
  exact (proj1 (C3_invalid_network_mode fixture.cc 0 [] fixture.appBogus []) H).
Defined.

(** ** Errors leave the container as it was. *)

(** C7. When [populateCommand] returns an error the container is exactly
    as it was, its command field included; the command is stored only by
    the return without error.  What an erroneous run has done is then
    confined to its log: paired acquires and releases of layers, followed
    at most by the failed metadata lookup. *)
Theorem C7_no_partial_launch_spec
    {D : Type} (cc : CommonContainer D) (fuel : nat) (d : D)
    (c : Container D) (env : list string)
    (d' : D) (log : list Event) (c' : Container D) (err : option error) :
  populateCommand cc fuel d c env = Returned d' log c' err ->
  (forall e, err = Some e ->
     c' = c /\ command c' = command c
     /\ (exists wlog, Paired wlog
          /\ (log = wlog
              \/ exists me, log = wlog ++ [EvGetMetadata (ID c) (Some me)]))
     /\ forall id, acquired id log = released id log)
  /\ (err = None -> exists cmd, c' = withCommand (Some cmd) c).
Proof.
  intros H.
  apply populateCommand_returned_inv in H
    as (wlog & HP & [(-> & -> & e0 & ->)|[(me & -> & -> & ->)|(-> & -> & cmd & ->)]]).
  - split; [|discriminate]. intros e _.
    repeat split; [exists wlog; tauto | apply Paired_balanced, HP].
  - split; [|discriminate]. intros e _.
    repeat split; [exists wlog; eauto|]. intros id.
    rewrite acquired_app, released_app, (Paired_balanced _ HP id). reflexivity.
  - split; [discriminate|]. intros _. eauto.
Qed.

Lemma C7_no_partial_launch_spec_witness :
  populateCommand fixture.cc 3 [] fixture.appMissingLayer []
  = Returned []
      [EvGet "app" "C:\layers\app" None; EvPut "app" None;
       EvGet "runtime" "" (Some (errorString "layer is missing"))]
      fixture.appMissingLayer
      (Some (ErrorCodeGetLayer "windowsfilter" "runtime"
               (errorString "layer is missing")))
  /\ (fixture.appMissingLayer = fixture.appMissingLayer
      /\ command fixture.appMissingLayer = command fixture.appMissingLayer
      /\ (exists wlog, Paired wlog
           /\ ([EvGet "app" "C:\layers\app" None; EvPut "app" None;
       EvGet "runtime" "" (Some (errorString "layer is missing"))] = wlog
               \/ exists me,
                    [EvGet "app" "C:\layers\app" None; EvPut "app" None;
       EvGet "runtime" "" (Some (errorString "layer is missing"))]
                    = wlog ++ [EvGetMetadata (ID fixture.appMissingLayer) (Some me)]))
      /\ forall id,
           acquired id
             [EvGet "app" "C:\layers\app" None; EvPut "app" None;
       EvGet "runtime" "" (Some (errorString "layer is missing"))]
           = released id
               [EvGet "app" "C:\layers\app" None; EvPut "app" None;
       EvGet "runtime" "" (Some (errorString "layer is missing"))]).
Proof.
  assert (H : populateCommand fixture.cc 3 [] fixture.appMissingLayer []
              = Returned []
                  [EvGet "app" "C:\layers\app" None; EvPut "app" None;
       EvGet "runtime" "" (Some (errorString "layer is missing"))]
                  fixture.appMissingLayer
                  (Some (ErrorCodeGetLayer "windowsfilter" "runtime"
                           (errorString "layer is missing"))))
    by (vm_compute; reflexivity).
  split; [exact H|].
  exact (proj1 (C7_no_partial_launch_spec fixture.cc 3 [] fixture.appMissingLayer []
                  _ _ _ _ H) _ eq_refl).
Defined.

(** C4, as the code has it. For a mode [default] or empty: the dispatch
    does not fail; a run without error stores a descriptor with no
    interface when networking is disabled, and one whose interface carries
    the configured MAC address, the daemon's bridge name and the
    port-binding table when it is enabled; and the descriptor stored with
    networking disabled is the same as the one stored for mode [none]. *)
Theorem C4_default_network_descriptor
    {D : Type} (cc : CommonContainer D) (fuel : nat) (d : D)
    (c : Container D) (env : list string) :
  beforeColon (runconfig.NetworkMode (hostConfig c)) = "default"
  \/ beforeColon (runconfig.NetworkMode (hostConfig c)) = "" ->
  (forall d' log c' s,
      populateCommand cc fuel d c env
      <> Returned d' log c' (Some (ErrorCodeInvalidNetworkMode s)))
  /\ (forall d' log c',
        populateCommand cc fuel d c env = Returned d' log c' None ->
        exists cmd,
          command c' = Some cmd
          /\ execdriver.Network_ cmd
             = Some (if runconfig.NetworkDisabled (Config c)
                     then {| execdriver.Interface := None |}
                     else {| execdriver.Interface := Some
                               {| execdriver.MacAddress :=
                                    runconfig.MacAddress (Config c);
                                  execdriver.Bridge := VirtualSwitchName (daemon c);
                                  execdriver.PortBindings :=
                                    runconfig.PortBindings (hostConfig c) |} |}))
  /\ (runconfig.NetworkDisabled (Config c) = true ->
      forall fuel0 d0 (c0 : Container D) env0,
        beforeColon (runconfig.NetworkMode (hostConfig c0)) = "none" ->
        forall d' log c' d0' log0 c0',
          populateCommand cc fuel d c env = Returned d' log c' None ->
          populateCommand cc fuel0 d0 c0 env0 = Returned d0' log0 c0' None ->
          execdriver.Network_ <$> command c' = execdriver.Network_ <$> command c0'
          /\ execdriver.Network_ <$> command c'
             = Some (Some {| execdriver.Interface := None |})).
Proof.
  intros Hmode.
  assert (Hr : recognised (runconfig.NetworkMode (hostConfig c)))
    by (unfold recognised; tauto).
  assert (Hnet : networkFor c
                 = if runconfig.NetworkDisabled (Config c)
                   then {| execdriver.Interface := None |}
                   else {| execdriver.Interface := Some
                             {| execdriver.MacAddress :=
                                  runconfig.MacAddress (Config c);
                                execdriver.Bridge := VirtualSwitchName (daemon c);
                                execdriver.PortBindings :=
                                  runconfig.PortBindings (hostConfig c) |} |}).
  { unfold networkFor.
    destruct (decide (beforeColon _ = "none")) as [Hnone|_]; [|reflexivity].
    destruct Hmode as [H|H]; rewrite H in Hnone; discriminate. }
  split; [|split].
  - intros d' log c' s Hrun.
    destruct (populateCommand_recognised_errors cc _ _ _ _ _ _ _ _ Hr Hrun)
      as [(id & cause & H)|[(drv & id & cause & H)|[(drv & id & cause & H)
         |(cause & H)]]]; discriminate.
  - intros d' log c' Hrun.
    destruct (populateCommand_success_network cc _ _ _ _ _ _ _ Hr Hrun)
      as (cmd & Hc & Hn).
    exists cmd. split; [exact Hc | by rewrite Hn, Hnet].
  - intros Hdis fuel0 d0 c0 env0 Hnone d' log c' d0' log0 c0' Hrun Hrun0.
    assert (Hr0 : recognised (runconfig.NetworkMode (hostConfig c0)))
      by (unfold recognised; tauto).
    destruct (populateCommand_success_network cc _ _ _ _ _ _ _ Hr Hrun)
      as (cmd & -> & Hn).
    destruct (populateCommand_success_network cc _ _ _ _ _ _ _ Hr0 Hrun0)
      as (cmd0 & -> & Hn0).
    simpl. rewrite Hn, Hn0, Hnet, Hdis. unfold networkFor.
    destruct (decide (beforeColon _ = "none")); [|contradiction].
    split; reflexivity.
Qed.

Lemma C4_default_network_descriptor_witness :
  (beforeColon (runconfig.NetworkMode (hostConfig fixture.appNoNetwork))
   = "default"
   \/ beforeColon (runconfig.NetworkMode (hostConfig fixture.appNoNetwork)) = "")
  /\ forall d' log c',
       populateCommand fixture.cc 3 [] fixture.appNoNetwork [] = Returned d' log c' None ->
       exists cmd,
         command c' = Some cmd
         /\ execdriver.Network_ cmd
            = Some (if runconfig.NetworkDisabled (Config fixture.appNoNetwork)
                    then {| execdriver.Interface := None |}
                    else {| execdriver.Interface := Some
                              {| execdriver.MacAddress :=
                                   runconfig.MacAddress (Config fixture.appNoNetwork);
                                 execdriver.Bridge :=
                                   VirtualSwitchName (daemon fixture.appNoNetwork);
                                 execdriver.PortBindings :=
                                   runconfig.PortBindings
                                     (hostConfig fixture.appNoNetwork) |} |}).
Proof.
  assert (H : beforeColon (runconfig.NetworkMode (hostConfig fixture.appNoNetwork))
              = "default"
              \/ beforeColon (runconfig.NetworkMode (hostConfig fixture.appNoNetwork))
                 = "") by (left; reflexivity).
  split; [exact H|].
  exact (proj1 (proj2
    (C4_default_network_descriptor fixture.cc 3 [] fixture.appNoNetwork [] H))).
Defined.

(** C4 as stated fails: with networking disabled, mode [default] and mode
    [none] store one and the same descriptor, the one with no interface. *)
Lemma C4_counterexample_same_as_none :
  networkOf (populateCommand fixture.cc 3 [] fixture.appNoNetwork [])
  = Some (Some {| execdriver.Interface := None |})
  /\ ~ (networkOf (populateCommand fixture.cc 3 [] fixture.appNoNetwork [])
        <> networkOf (populateCommand fixture.cc 3 [] fixture.appNone [])).
Proof.
  split; [vm_compute; reflexivity|].
  intros Hne. apply Hne. vm_compute. reflexivity.
Qed.

(** C8. The empty network mode and the mode [default] give the same
    result, all else equal (the root path and the two labels of the
    container, which its own methods supply, included): the same driver
    state, the same calls, the same error and the same stored command. *)
Theorem C8_empty_mode_is_default
    {D : Type} (cc : CommonContainer D) (fuel : nat) (d : D)
    (c : Container D) (env : list string) :
  rootfsPath cc (setNetworkMode "" c) = rootfsPath cc (setNetworkMode "default" c) ->
  getMountLabel cc (setNetworkMode "" c)
  = getMountLabel cc (setNetworkMode "default" c) ->
  getProcessLabel cc (setNetworkMode "" c)
  = getProcessLabel cc (setNetworkMode "default" c) ->
  sameResult (populateCommand cc fuel d (setNetworkMode "" c) env)
             (populateCommand cc fuel d (setNetworkMode "default" c) env).
Proof.
  intros Hroot Hmount Hproc.
  rewrite (populateCommand_recognised cc fuel d (setNetworkMode "" c) env)
    by (right; right; reflexivity).
  rewrite (populateCommand_recognised cc fuel d (setNetworkMode "default" c) env)
    by (right; left; reflexivity).
  unfold afterDispatch. simpl.
  destruct (graph.Get _ _) as [img [e|]]; [simpl; tauto|].
  destruct (populateCommand_loop _ _ _ _ _ _ _) as [d1 log1 paths1|d1 log1 e1|];
    simpl; [|tauto|tauto].
  destruct (graphdriver.GetMetadata _ _ _) as [d2 [m [e|]]]; simpl; [tauto|].
  repeat split. unfold launchSpec, networkFor. simpl.
  rewrite Hroot, Hmount, Hproc. reflexivity.
Qed.

Lemma C8_empty_mode_is_default_witness :
  rootfsPath fixture.cc (setNetworkMode "" fixture.appContainer)
  = rootfsPath fixture.cc (setNetworkMode "default" fixture.appContainer)
  /\ getMountLabel fixture.cc (setNetworkMode "" fixture.appContainer)
     = getMountLabel fixture.cc (setNetworkMode "default" fixture.appContainer)
  /\ getProcessLabel fixture.cc (setNetworkMode "" fixture.appContainer)
     = getProcessLabel fixture.cc (setNetworkMode "default" fixture.appContainer)
  /\ sameResult
       (populateCommand fixture.cc 3 [] (setNetworkMode "" fixture.appContainer) [])
       (populateCommand fixture.cc 3 []
          (setNetworkMode "default" fixture.appContainer) []).
Proof.
  split; [reflexivity|]. split; [reflexivity|]. split; [reflexivity|].
  exact (C8_empty_mode_is_default fixture.cc 3 [] fixture.appContainer []
           eq_refl eq_refl eq_refl).
Defined.

(** ** Termination of the walk. *)

(** C9, as the code has it. On a graph whose walk from the leaf is finite
    (a chain that ends at an image without parent, or at a parent that
    cannot be fetched), [populateCommand] returns, with one unit of fuel
    per image.  The walk has no guard against an image that is its own
    parent: on such a leaf, with a recognised mode and a driver that does
    not fail on it, the loop is still running whatever the fuel. *)
Theorem C9_walk_terminates_on_finite_chains
    {D : Type} (cc : CommonContainer D) (fuel : nat) (d : D)
    (c : Container D) (env : list string) :
  (forall leaf l,
      graph.Get (graph_ (daemon c)) (ImageID c) = (leaf, None) ->
      (Chain (graph_ (daemon c)) leaf l
       \/ exists e, BrokenChain (graph_ (daemon c)) leaf l e) ->
      length l <= fuel ->
      returns (populateCommand cc fuel d c env))
  /\ (forall img,
        recognised (runconfig.NetworkMode (hostConfig c)) ->
        graph.Get (graph_ (daemon c)) (ImageID c) = (Some img, None) ->
        graph.GetParent (graph_ (daemon c)) img = (Some img, None) ->
        (forall d0, exists d1 lp d2,
            graphdriver.Get (driver (daemon c)) d0 (image.ID img) ""
            = (d1, (lp, None))
            /\ graphdriver.Put (driver (daemon c)) d1 (image.ID img) = (d2, None)) ->
        populateCommand cc fuel d c env = OutOfFuel).
Proof.
  split.
  - intros leaf l Hget Hchain Hfuel.
    assert (Hvis : Visits (graph_ (daemon c)) leaf None l).
    { destruct Hchain as [H|[e H]];
        [eapply Chain_Visits | eapply BrokenChain_Visits]; eassumption. }
    destruct (beforeColon_cases (runconfig.NetworkMode (hostConfig c)))
      as [Hr|Hn].
    + assert (Hr' : recognised (runconfig.NetworkMode (hostConfig c)))
        by (unfold recognised; tauto).
      rewrite (populateCommand_recognised cc _ _ _ _ Hr').
      unfold afterDispatch. rewrite Hget.
      pose proof (loop_terminates _ _ _ _ Hvis fuel d [] [] Hfuel) as Hterm.
      destruct (populateCommand_loop _ _ _ _ _ _ _); [| exact I | congruence].
      destruct (graphdriver.GetMetadata _ _ _) as [d2 [m [e|]]]; exact I.
    + rewrite (populateCommand_unrecognised cc _ _ _ _ Hn). exact I.
  - intros img Hr Hget Hself Hdrv.
    rewrite (populateCommand_recognised cc _ _ _ _ Hr).
    unfold afterDispatch. rewrite Hget.
    rewrite (loop_self_parent _ _ Hself Hdrv). reflexivity.
Qed.

Lemma C9_walk_terminates_on_finite_chains_witness :
  graph.Get (graph_ (daemon fixture.appContainer))
    (ImageID fixture.appContainer) = (Some fixture.app, None)
  /\ (Chain (graph_ (daemon fixture.appContainer)) (Some fixture.app)
        [fixture.app; fixture.runtime; fixture.base]
      \/ exists e,
          BrokenChain (graph_ (daemon fixture.appContainer)) (Some fixture.app)
            [fixture.app; fixture.runtime; fixture.base] e)
  /\ 3 <= 3
  /\ returns (populateCommand fixture.cc 3 [] fixture.appContainer []).
Proof.
  assert (H1 : graph.Get (graph_ (daemon fixture.appContainer))
                 (ImageID fixture.appContainer)
               = (Some fixture.app, None)) by reflexivity.
  assert (H2 : Chain (graph_ (daemon fixture.appContainer)) (Some fixture.app)
                 [fixture.app; fixture.runtime; fixture.base]
               \/ exists e,
                   BrokenChain (graph_ (daemon fixture.appContainer))
                     (Some fixture.app)
                     [fixture.app; fixture.runtime; fixture.base] e).
  { left. eapply Chain_link; [reflexivity|].
    eapply Chain_link; [reflexivity|].
    eapply Chain_link; [reflexivity|]. constructor. }
  assert (H3 : 3 <= 3) by lia.
  split; [exact H1|]. split; [exact H2|]. split; [exact H3|].
  exact (proj1
    (C9_walk_terminates_on_finite_chains fixture.cc 3 [] fixture.appContainer [])
    _ _ H1 H2 H3).
Defined.

(** C9 as stated fails: the image [selfish] is its own parent, and on the
    container built on it no amount of fuel lets [populateCommand]
    return. *)
Lemma C9_counterexample_self_parent :
  graph.GetParent (graph_ (daemon fixture.selfishContainer)) fixture.selfish
  = (Some fixture.selfish, None)
  /\ ~ (exists fuel,
         returns (populateCommand fixture.cc fuel [] fixture.selfishContainer [])).
Proof.
  split; [reflexivity|]. intros [fuel Hret].
  rewrite (populateCommand_recognised fixture.cc fuel [] fixture.selfishContainer [])
    in Hret by (right; left; reflexivity).
  unfold afterDispatch in Hret.
  change (graph.Get (graph_ (daemon fixture.selfishContainer))
            (ImageID fixture.selfishContainer))
    with (Some fixture.selfish, @None error) in Hret.
  cbv beta iota in Hret.
  rewrite (loop_self_parent (daemon fixture.selfishContainer) fixture.selfish)
    in Hret; [exact Hret | reflexivity |].
  intros d0. eexists _, _, _. split; reflexivity.
Qed.

(** ** A parent that cannot be fetched. *)

(** C10. When the walk meets the images of [l] (at least one) and fetching
    the parent of the last one fails, with a recognised mode and one unit
    of fuel per image: [populateCommand] returns; an error it returns is
    the driver's (a failed acquire, release or metadata lookup), never one
    for the parent that could not be fetched; a run without error has
    stored a layer path list with one entry per image of [l]; and when the
    driver resolves [l] and the metadata lookup succeeds the run is
    without error, its layer paths being those of [l] and no more. *)
Theorem C10_parent_fetch_failure_is_silent
    {D : Type} (cc : CommonContainer D) (fuel : nat) (d : D)
    (c : Container D) (env : list string)
    (leaf : option image.Image) (l : list image.Image) (e : error) :
  recognised (runconfig.NetworkMode (hostConfig c)) ->
  graph.Get (graph_ (daemon c)) (ImageID c) = (leaf, None) ->
  BrokenChain (graph_ (daemon c)) leaf l e ->
  length l <= fuel ->
  1 <= length l
  /\ returns (populateCommand cc fuel d c env)
  /\ (forall d' log c' e',
        populateCommand cc fuel d c env = Returned d' log c' (Some e') ->
        (exists drv id cause, e' = ErrorCodeGetLayer drv id cause)
        \/ (exists drv id cause, e' = ErrorCodePutLayer drv id cause)
        \/ (exists cause, e' = ErrorCodeGetLayerMetadata cause))
  /\ (forall d' log c',
        populateCommand cc fuel d c env = Returned d' log c' None ->
        exists cmd evs d1,
          command c' = Some cmd
          /\ length (execdriver.LayerPaths cmd) = length l
          /\ Resolves (driver (daemon c)) d l (execdriver.LayerPaths cmd) evs d1)
  /\ (forall paths evs d1 d2 m,
        Resolves (driver (daemon c)) d l paths evs d1 ->
        graphdriver.GetMetadata (driver (daemon c)) d1 (ID c) = (d2, (m, None)) ->
        exists cmd,
          populateCommand cc fuel d c env
          = Returned d2 (evs ++ [EvGetMetadata (ID c) None])
              (withCommand (Some cmd) c) None
          /\ execdriver.LayerPaths cmd = paths
          /\ length paths = length l).
Proof.
  intros Hr Hget Hbroken Hfuel.
  pose proof (BrokenChain_Visits _ _ _ _ Hbroken) as Hvis.
  rewrite (populateCommand_recognised cc _ _ _ _ Hr).
  unfold afterDispatch. rewrite Hget.
  split; [destruct Hbroken; simpl; lia|].
  split; [|split; [|split]].
  - pose proof (loop_terminates _ _ _ _ Hvis fuel d [] [] Hfuel) as Hterm.
    destruct (populateCommand_loop _ _ _ _ _ _ _); [| exact I | congruence].
    destruct (graphdriver.GetMetadata _ _ _) as [d2 [m [e0|]]]; exact I.
  - intros d' log c' e' Hrun.
    destruct (populateCommand_loop _ _ _ _ _ _ _) as [d1 log1 paths1|d1 log1 e1|]
      eqn:Hloop; [| |discriminate].
    + destruct (graphdriver.GetMetadata _ _ _) as [d2 [m [e0|]]];
        [|discriminate].
      injection Hrun as <- <- <- <-. right; right. eauto.
    + injection Hrun as <- <- <- <-.
      apply loop_return_error in Hloop as (drv & id & cause & [->| ->]);
        [left | right; left]; eauto.
  - intros d' log c' Hrun.
    destruct (populateCommand_loop _ _ _ _ _ _ _) as [d1 log1 paths1|d1 log1 e1|]
      eqn:Hloop; try discriminate.
    destruct (graphdriver.GetMetadata _ _ _) as [d2 [m [e0|]]];
      [discriminate|].
    injection Hrun as <- <- <-.
    apply loop_exit_inv in Hloop as (l' & paths & evs & HV & HR & _ & ->).
    rewrite <- (Visits_fun _ _ _ _ Hvis _ HV) in HR. simpl.
    eexists _, evs, d1. split; [reflexivity|]. simpl.
    split; [eapply Resolves_length, HR | exact HR].
  - intros paths evs d1 d2 m HR Hm.
    rewrite (loop_complete _ _ _ _ Hvis fuel d [] [] paths evs d1 HR Hfuel).
    rewrite Hm. simpl. eexists.
    split; [reflexivity|]. split; [reflexivity | eapply Resolves_length, HR].
Qed.

Lemma C10_parent_fetch_failure_is_silent_witness :
  recognised (runconfig.NetworkMode (hostConfig fixture.orphanContainer))
  /\ graph.Get (graph_ (daemon fixture.orphanContainer))
       (ImageID fixture.orphanContainer) = (Some fixture.orphan, None)
  /\ BrokenChain (graph_ (daemon fixture.orphanContainer)) (Some fixture.orphan)
       [fixture.orphan] (errorString "could not find image")
  /\ 1 <= 1
  /\ Resolves (driver (daemon fixture.orphanContainer)) [] [fixture.orphan]
       ["C:\layers\orphan"]
       [EvGet "orphan" "C:\layers\orphan" None; EvPut "orphan" None] []
  /\ exists cmd,
       populateCommand fixture.cc 1 [] fixture.orphanContainer []
       = Returned []
           ([EvGet "orphan" "C:\layers\orphan" None; EvPut "orphan" None]
            ++ [EvGetMetadata (ID fixture.orphanContainer) None])
           (withCommand (Some cmd) fixture.orphanContainer) None
       /\ execdriver.LayerPaths cmd = ["C:\layers\orphan"]
       /\ length ["C:\layers\orphan"] = length [fixture.orphan].
Proof.
  assert (H0 : recognised
                 (runconfig.NetworkMode (hostConfig fixture.orphanContainer)))
    by (right; left; reflexivity).
  assert (H1 : graph.Get (graph_ (daemon fixture.orphanContainer))
                 (ImageID fixture.orphanContainer)
               = (Some fixture.orphan, None)) by reflexivity.
  assert (H2 : BrokenChain (graph_ (daemon fixture.orphanContainer))
                 (Some fixture.orphan) [fixture.orphan]
                 (errorString "could not find image"))
    by (eapply Broken_here; reflexivity).
  assert (H3 : 1 <= 1) by lia.
  assert (H4 : Resolves (driver (daemon fixture.orphanContainer)) []
                 [fixture.orphan] ["C:\layers\orphan"]
                 [EvGet "orphan" "C:\layers\orphan" None; EvPut "orphan" None] []).
  { eapply (Resolves_cons _ _ fixture.orphan); [reflexivity | reflexivity|].
    constructor. }
  split; [exact H0|]. split; [exact H1|]. split; [exact H2|].
  split; [exact H3|]. split; [exact H4|].
  exact (proj2 (proj2 (proj2 (proj2
    (C10_parent_fetch_failure_is_silent fixture.cc 1 [] fixture.orphanContainer []
       _ _ _ H0 H1 H2 H3)))) _ _ _ _ _ H4 eq_refl).
Defined.

(** ** The mount lifecycle. *)

(** C5. [conditionalMountOnStart] calls the mount exactly once for a
    process-isolated container and never for a hypervisor-isolated one;
    [conditionalUnmountOnCleanup] does the same with the unmount. *)
Theorem C5_mount_once_unless_hyperv
    {D : Type} (cc : CommonContainer D) (d : D) (c : Container D) :
  mounts (conditionalMountOnStart cc d c).1.1.2
  = match runconfig.Isolation (hostConfig c) with
    | runconfig.ProcessIsolated => 1
    | runconfig.HypervisorIsolated => 0
    end
  /\ unmounts (conditionalUnmountOnCleanup cc d c).1.2
     = match runconfig.Isolation (hostConfig c) with
       | runconfig.ProcessIsolated => 1
       | runconfig.HypervisorIsolated => 0
       end.
Proof.
  unfold conditionalMountOnStart, conditionalUnmountOnCleanup.
  destruct (runconfig.Isolation (hostConfig c)); simpl.
  - destruct (Mount cc d c) as [[d1 c1] [e|]];
      destruct (Unmount cc d c) as [[d2 c2] [e'|]]; split; reflexivity.
  - split; reflexivity.
Qed.

(** C6. For a container that is not a Hyper-V one: an error of the mount
    is the result of [conditionalMountOnStart]; an error of the unmount is
    logged by [conditionalUnmountOnCleanup], which has no error to return.
    Whatever the isolation and whatever the unmount gives, the cleanup
    returns, and what it logs apart from the unmount itself is the error
    report. *)
Theorem C6_mount_error_fatal_unmount_error_logged
    {D : Type} (cc : CommonContainer D) (d : D) (c : Container D) :
  (runconfig.IsHyperV (runconfig.Isolation (hostConfig c)) = false ->
   forall d1 c1 e,
     Mount cc d c = (d1, c1, Some e) ->
     conditionalMountOnStart cc d c = (d1, [EvMount (Some e)], c1, Some e))
  /\ (runconfig.IsHyperV (runconfig.Isolation (hostConfig c)) = false ->
      forall d1 c1 e,
        Unmount cc d c = (d1, c1, Some e) ->
        conditionalUnmountOnCleanup cc d c
        = (d1,
           [EvUnmount (Some e);
            EvLogErrorf "%v: Failed to umount filesystem: %v" (ID c1) e],
           c1))
  /\ (exists d1 log c1,
        conditionalUnmountOnCleanup cc d c = (d1, log, c1)
        /\ (runconfig.IsHyperV (runconfig.Isolation (hostConfig c)) = false ->
            (d1, c1) = (Unmount cc d c).1)).
Proof.
  unfold conditionalMountOnStart, conditionalUnmountOnCleanup.
  split; [|split].
  - intros -> d1 c1 e ->. reflexivity.
  - intros -> d1 c1 e ->. reflexivity.
  - destruct (runconfig.IsHyperV _); simpl.
    + eexists _, _, _. split; [reflexivity | discriminate].
    + destruct (Unmount cc d c) as [[d1 c1] [e|]];
        eexists _, _, _; split; reflexivity.
Qed.

Lemma C6_mount_error_fatal_unmount_error_logged_witness :
  runconfig.IsHyperV (runconfig.Isolation (hostConfig fixture.appContainer))
  = false
  /\ Mount (fixture.methods true true) ["c0"] fixture.appContainer
     = (["c0"], fixture.appContainer, Some (errorString "mount failed"))
  /\ Unmount (fixture.methods true true) ["c0"] fixture.appContainer
     = (["c0"], fixture.appContainer, Some (errorString "unmount failed"))
  /\ conditionalMountOnStart (fixture.methods true true) ["c0"]
       fixture.appContainer
     = (["c0"], [EvMount (Some (errorString "mount failed"))],
        fixture.appContainer, Some (errorString "mount failed"))
  /\ conditionalUnmountOnCleanup (fixture.methods true true) ["c0"]
       fixture.appContainer
     = (["c0"],
        [EvUnmount (Some (errorString "unmount failed"));
         EvLogErrorf "%v: Failed to umount filesystem: %v"
           (ID fixture.appContainer) (errorString "unmount failed")],
        fixture.appContainer).
Proof.
  assert (H0 : runconfig.IsHyperV
                 (runconfig.Isolation (hostConfig fixture.appContainer)) = false)
    by reflexivity.
  assert (H1 : Mount (fixture.methods true true) ["c0"] fixture.appContainer
               = (["c0"], fixture.appContainer,
                  Some (errorString "mount failed"))) by reflexivity.
  assert (H2 : Unmount (fixture.methods true true) ["c0"] fixture.appContainer
               = (["c0"], fixture.appContainer,
                  Some (errorString "unmount failed"))) by reflexivity.
  split; [exact H0|]. split; [exact H1|]. split; [exact H2|].
  split.
  - exact (proj1 (C6_mount_error_fatal_unmount_error_logged
                    (fixture.methods true true) ["c0"] fixture.appContainer)
             H0 _ _ _ H1).
  - exact (proj1 (proj2 (C6_mount_error_fatal_unmount_error_logged
                           (fixture.methods true true) ["c0"]
                           fixture.appContainer))
             H0 _ _ _ H2).
Defined.

(** Runs of the lifecycle on the fixture: a Hyper-V container is neither
    mounted nor unmounted; a process-isolated one is mounted on start. *)
Example lifecycle_hyperv :
  conditionalMountOnStart fixture.cc [] fixture.appHyperV
  = ([], [], fixture.appHyperV, None)
  /\ conditionalUnmountOnCleanup fixture.cc [] fixture.appHyperV
     = ([], [], fixture.appHyperV).
Proof. split; reflexivity. Qed.

Example lifecycle_process :
  conditionalMountOnStart fixture.cc [] fixture.appContainer
  = (["c1"], [EvMount None], fixture.appContainer, None)
  /\ conditionalUnmountOnCleanup fixture.cc ["c1"] fixture.appContainer
     = ([], [EvUnmount None], fixture.appContainer).
Proof. split; reflexivity. Qed.

(** A container without image: no layer is visited, the layer path list is
    empty and the run is without error. *)
Example run_no_image :
  exists cmd,
    populateCommand fixture.cc 0 []
      (fixture.container "" "none" false runconfig.ProcessIsolated [] []) []
    = Returned [] [EvGetMetadata "c1" None]
        (withCommand (Some cmd)
           (fixture.container "" "none" false runconfig.ProcessIsolated [] []))
        None
    /\ execdriver.LayerPaths cmd = []
    /\ execdriver.Network_ cmd = Some {| execdriver.Interface := None |}.
Proof. eexists. split; [vm_compute; reflexivity | split; reflexivity]. Qed.

(** The parent of [orphan] cannot be fetched: the run is without error and
    stores the one path resolved before the failure. *)
Example run_orphan :
  exists cmd,
    populateCommand fixture.cc 1 [] fixture.orphanContainer []
    = Returned []
        [EvGet "orphan" "C:\layers\orphan" None; EvPut "orphan" None;
         EvGetMetadata "c1" None]
        (withCommand (Some cmd) fixture.orphanContainer) None
    /\ execdriver.LayerPaths cmd = ["C:\layers\orphan"].
Proof. eexists. split; [vm_compute; reflexivity | reflexivity]. Qed.

(** * Further properties of the file. *)

(** ** [strings.SplitN]. *)

Lemma cut_Some sep s p r :
  gostrings.cut sep s = Some (p, r) ->
  s = p +:+ String sep r /\ gostrings.cut sep p = None.
Proof.
  revert p r. induction s as [|a s IH]; intros p r H; simpl in H;
    [discriminate|].
  destruct (decide (a = sep)) as [->|Hne].
  - injection H as <- <-. split; reflexivity.
  - destruct (gostrings.cut sep s) as [[p' r']|] eqn:Hc; [|discriminate].
    injection H as <- <-. destruct (IH _ _ eq_refl) as [-> Hp]. split.
    + reflexivity.
    + simpl. destruct (decide (a = sep)); [contradiction|]. by rewrite Hp.
Qed.

Lemma SplitN_nonempty s sep n : gostrings.SplitN s sep (S n) <> [].
Proof.
  destruct n as [|n]; simpl; [discriminate|].
  destruct (gostrings.cut sep s) as [[p r]|]; discriminate.
Qed.

(** Splitting into at most [n >= 1] pieces gives between 1 and [n] pieces,
    every piece but the last is free of the separator, and joining the
    pieces with the separator gives the string back. *)
Theorem SplitN_Join_roundtrip (sep : ascii) (n : nat) (s : string) :
  1 <= n ->
  1 <= length (gostrings.SplitN s sep n) <= n
  /\ Forall (fun p => gostrings.cut sep p = None)
       (removelast (gostrings.SplitN s sep n))
  /\ Join (gostrings.SplitN s sep n) sep = s.
Proof.
  revert s. induction n as [|n IH]; intros s Hn; [lia|].
  destruct n as [|n].
  - simpl. repeat split; [lia | lia | constructor].
  - change (gostrings.SplitN s sep (S (S n)))
      with (match gostrings.cut sep s with
            | None => [s]
            | Some (p, r) => p :: gostrings.SplitN r sep (S n)
            end).
    destruct (gostrings.cut sep s) as [[p r]|] eqn:Hc.
    + destruct (cut_Some _ _ _ _ Hc) as [-> Hp].
      destruct (IH r ltac:(lia)) as ((Hlo & Hhi) & Hfree & Hjoin).
      pose proof (SplitN_nonempty r sep n) as Hne.
      destruct (gostrings.SplitN r sep (S n)) as [|q rest] eqn:Hs;
        [congruence|].
      repeat split.
      * simpl. lia.
      * simpl in *. lia.
      * change (removelast (p :: q :: rest)) with (p :: removelast (q :: rest)).
        constructor; assumption.
      * change (Join (p :: q :: rest) sep)
          with (p +:+ String sep (Join (q :: rest) sep)).
        by rewrite Hjoin.
    + simpl. repeat split; [lia | lia | constructor].
Qed.

Lemma SplitN_Join_roundtrip_witness :
  1 <= 2
  /\ gostrings.SplitN "container:web:1" ":"%char 2 = ["container"; "web:1"]
  /\ Join (gostrings.SplitN "container:web:1" ":"%char 2) ":"%char
     = "container:web:1".
Proof.
  assert (H : 1 <= 2) by lia.
  split; [exact H|]. split; [reflexivity|].
  exact (proj2 (proj2 (SplitN_Join_roundtrip ":"%char 2 "container:web:1" H))).
Defined.

(** ** [populateCommand]: no panic, and the fuel. *)

(** [parts[0]] is always in range: [populateCommand] never panics. *)
Theorem populateCommand_never_panics
    {D : Type} (cc : CommonContainer D) (fuel : nat) (d : D)
    (c : Container D) (env : list string) (msg : string) :
  populateCommand cc fuel d c env <> Panicked msg.
Proof.
  destruct (beforeColon_cases (runconfig.NetworkMode (hostConfig c)))
    as [Hr|Hn].
  - assert (Hr' : recognised (runconfig.NetworkMode (hostConfig c)))
      by (unfold recognised; tauto).
    rewrite (populateCommand_recognised cc _ _ _ _ Hr').
    unfold afterDispatch.
    destruct (graph.Get _ _) as [img [e|]]; [discriminate|].
    destruct (populateCommand_loop _ _ _ _ _ _ _); try discriminate.
    destruct (graphdriver.GetMetadata _ _ _) as [d2 [m [e|]]]; discriminate.
  - rewrite (populateCommand_unrecognised cc _ _ _ _ Hn). discriminate.
Qed.




(** ** [populateCommand]: each way it fails. *)

Lemma loop_prefix {D} (dm : Daemon D) i l img :
  Reaches (graph_ dm) i l img ->
  forall fuel d log acc paths evs d1,
    Resolves (driver dm) d l paths evs d1 ->
    populateCommand_loop (length l + fuel) dm d log i None acc
    = populateCommand_loop fuel dm d1 (log ++ evs) (Some img) None (acc ++ paths).
Proof.
  induction 1 as [img|i0 p l img Hp _ IH];
    intros fuel d log acc paths evs d1 HR.
  - inversion HR; subst. simpl. by rewrite !app_nil_r.
  - inversion HR as [|d0 img0 l0 lp d2 d3 paths0 evs0 d4 HGet HPut HR']; subst.
    simpl. rewrite HGet, HPut, Hp.
    rewrite (IH fuel d3 _ _ _ _ _ HR'). by rewrite <- !app_assoc.
Qed.

(** With a recognised mode, a failed graph lookup of the container's image
    is returned as [ErrorCodeGetGraph] with the image identifier and the
    cause, also when the graph hands back an image with the error; the
    driver is not called and the container is as it was. *)
Theorem populateCommand_graph_lookup_fails
    {D : Type} (cc : CommonContainer D) (fuel : nat) (d : D)
    (c : Container D) (env : list string)
    (img : option image.Image) (e : error) :
  recognised (runconfig.NetworkMode (hostConfig c)) ->
  graph.Get (graph_ (daemon c)) (ImageID c) = (img, Some e) ->
  populateCommand cc fuel d c env
  = Returned d [] c (Some (ErrorCodeGetGraph (ImageID c) e)).
Proof.
  intros Hr Hget. rewrite (populateCommand_recognised cc _ _ _ _ Hr).
  unfold afterDispatch. by rewrite Hget.
Qed.

Lemma populateCommand_graph_lookup_fails_witness :
  recognised
    (runconfig.NetworkMode
       (hostConfig (fixture.container "gone" "default" false
                      runconfig.ProcessIsolated [] [])))
  /\ graph.Get
       (graph_ (daemon (fixture.container "gone" "default" false
                          runconfig.ProcessIsolated [] [])))
       (ImageID (fixture.container "gone" "default" false
                   runconfig.ProcessIsolated [] []))
     = (None, Some (errorString "could not find image"))
  /\ populateCommand fixture.cc 0 ["held"]
       (fixture.container "gone" "default" false runconfig.ProcessIsolated [] [])
       []
     = Returned ["held"] []
         (fixture.container "gone" "default" false runconfig.ProcessIsolated [] [])
         (Some (ErrorCodeGetGraph
                  (ImageID (fixture.container "gone" "default" false
                              runconfig.ProcessIsolated [] []))
                  (errorString "could not find image"))).
Proof.
  assert (H0 : recognised
                 (runconfig.NetworkMode
                    (hostConfig (fixture.container "gone" "default" false
                                   runconfig.ProcessIsolated [] []))))
    by (right; left; reflexivity).
  assert (H1 : graph.Get
                 (graph_ (daemon (fixture.container "gone" "default" false
                                    runconfig.ProcessIsolated [] [])))
                 (ImageID (fixture.container "gone" "default" false
                             runconfig.ProcessIsolated [] []))
               = (None, Some (errorString "could not find image")))
    by reflexivity.
  split; [exact H0|]. split; [exact H1|].
  exact (populateCommand_graph_lookup_fails fixture.cc 0 ["held"]
           (fixture.container "gone" "default" false
              runconfig.ProcessIsolated [] [])
           [] _ _ H0 H1).
Defined.

(** When the walk has resolved the images of [l] and the driver cannot
    acquire the layer of the next image, [populateCommand] returns
    [ErrorCodeGetLayer] with the driver's name, that layer's identifier and
    the cause: the failed layer is not released, its ancestors are not
    visited, the metadata is not looked up, the container is as it was. *)
Theorem populateCommand_acquire_fails
    {D : Type} (cc : CommonContainer D) (fuel : nat) (d : D)
    (c : Container D) (env : list string)
    (leaf : option image.Image) (l : list image.Image) (img : image.Image)
    (paths : list string) (evs : list Event) (d1 d2 : D)
    (lp : string) (e : error) :
  recognised (runconfig.NetworkMode (hostConfig c)) ->
  graph.Get (graph_ (daemon c)) (ImageID c) = (leaf, None) ->
  Reaches (graph_ (daemon c)) leaf l img ->
  Resolves (driver (daemon c)) d l paths evs d1 ->
  graphdriver.Get (driver (daemon c)) d1 (image.ID img) "" = (d2, (lp, Some e)) ->
  length l < fuel ->
  populateCommand cc fuel d c env
  = Returned d2 (evs ++ [EvGet (image.ID img) lp (Some e)]) c
      (Some (ErrorCodeGetLayer (graphdriver.String_ (driver (daemon c)) d2)
               (image.ID img) e)).
Proof.
  intros Hr Hget Hreach HR HGet Hfuel.
  rewrite (populateCommand_recognised cc _ _ _ _ Hr).
  unfold afterDispatch. rewrite Hget.
  replace fuel with (length l + S (fuel - S (length l))) by lia.
  rewrite (loop_prefix _ _ _ _ Hreach _ d [] [] paths evs d1 HR).
  simpl. rewrite HGet. reflexivity.
Qed.

Lemma populateCommand_acquire_fails_witness :
  recognised (runconfig.NetworkMode (hostConfig fixture.appMissingLayer))
  /\ graph.Get (graph_ (daemon fixture.appMissingLayer))
       (ImageID fixture.appMissingLayer) = (Some fixture.app, None)
  /\ Reaches (graph_ (daemon fixture.appMissingLayer)) (Some fixture.app)
       [fixture.app] fixture.runtime
  /\ Resolves (driver (daemon fixture.appMissingLayer)) [] [fixture.app]
       ["C:\layers\app"] [EvGet "app" "C:\layers\app" None; EvPut "app" None] []
  /\ graphdriver.Get (driver (daemon fixture.appMissingLayer)) []
       (image.ID fixture.runtime) ""
     = ([], ("", Some (errorString "layer is missing")))
  /\ 1 < 2
  /\ populateCommand fixture.cc 2 [] fixture.appMissingLayer []
     = Returned []
         ([EvGet "app" "C:\layers\app" None; EvPut "app" None]
          ++ [EvGet (image.ID fixture.runtime) ""
                (Some (errorString "layer is missing"))])
         fixture.appMissingLayer
         (Some (ErrorCodeGetLayer
                  (graphdriver.String_ (driver (daemon fixture.appMissingLayer)) [])
                  (image.ID fixture.runtime) (errorString "layer is missing"))).
Proof.
  assert (H0 : recognised
                 (runconfig.NetworkMode (hostConfig fixture.appMissingLayer)))
    by (left; reflexivity).
  assert (H1 : graph.Get (graph_ (daemon fixture.appMissingLayer))
                 (ImageID fixture.appMissingLayer) = (Some fixture.app, None))
    by reflexivity.
  assert (H2 : Reaches (graph_ (daemon fixture.appMissingLayer))
                 (Some fixture.app) [fixture.app] fixture.runtime)
    by (eapply Reaches_step; [reflexivity | constructor]).
  assert (H3 : Resolves (driver (daemon fixture.appMissingLayer)) []
                 [fixture.app] ["C:\layers\app"]
                 [EvGet "app" "C:\layers\app" None; EvPut "app" None] []).
  { eapply (Resolves_cons _ _ fixture.app); [reflexivity | reflexivity|].
    constructor. }
  assert (H4 : graphdriver.Get (driver (daemon fixture.appMissingLayer)) []
                 (image.ID fixture.runtime) ""
               = ([], ("", Some (errorString "layer is missing"))))
    by reflexivity.
  assert (H5 : 1 < 2) by lia.
  split; [exact H0|]. split; [exact H1|]. split; [exact H2|].
  split; [exact H3|]. split; [exact H4|]. split; [exact H5|].
  exact (populateCommand_acquire_fails fixture.cc 2 [] fixture.appMissingLayer []
           _ _ _ _ _ _ _ _ _ H0 H1 H2 H3 H4 H5).
Defined.

(** When the walk has resolved the images of [l], acquires the layer of
    the next image and cannot release it, [populateCommand] returns
    [ErrorCodePutLayer] with the driver's name, that layer's identifier and
    the cause: the walk stops there, the path already appended is dropped
    with the rest, the container is as it was. *)
Theorem populateCommand_release_fails
    {D : Type} (cc : CommonContainer D) (fuel : nat) (d : D)
    (c : Container D) (env : list string)
    (leaf : option image.Image) (l : list image.Image) (img : image.Image)
    (paths : list string) (evs : list Event) (d1 d2 d3 : D)
    (lp : string) (e : error) :
  recognised (runconfig.NetworkMode (hostConfig c)) ->
  graph.Get (graph_ (daemon c)) (ImageID c) = (leaf, None) ->
  Reaches (graph_ (daemon c)) leaf l img ->
  Resolves (driver (daemon c)) d l paths evs d1 ->
  graphdriver.Get (driver (daemon c)) d1 (image.ID img) "" = (d2, (lp, None)) ->
  graphdriver.Put (driver (daemon c)) d2 (image.ID img) = (d3, Some e) ->
  length l < fuel ->
  populateCommand cc fuel d c env
  = Returned d3
      (evs ++ [EvGet (image.ID img) lp None; EvPut (image.ID img) (Some e)]) c
      (Some (ErrorCodePutLayer (graphdriver.String_ (driver (daemon c)) d3)
               (image.ID img) e)).
Proof.
  intros Hr Hget Hreach HR HGet HPut Hfuel.
  rewrite (populateCommand_recognised cc _ _ _ _ Hr).
  unfold afterDispatch. rewrite Hget.
  replace fuel with (length l + S (fuel - S (length l))) by lia.
  rewrite (loop_prefix _ _ _ _ Hreach _ d [] [] paths evs d1 HR).
  simpl. rewrite HGet, HPut. reflexivity.
Qed.

Lemma populateCommand_release_fails_witness :
  recognised
    (runconfig.NetworkMode
       (hostConfig (fixture.container "app" "none" false
                      runconfig.ProcessIsolated [] ["app"])))
  /\ populateCommand fixture.cc 1 []
       (fixture.container "app" "none" false runconfig.ProcessIsolated [] ["app"])
       []
     = Returned ["app"]
         ([] ++ [EvGet (image.ID fixture.app) "C:\layers\app" None;
                 EvPut (image.ID fixture.app) (Some (errorString "layer is busy"))])
         (fixture.container "app" "none" false runconfig.ProcessIsolated [] ["app"])
         (Some (ErrorCodePutLayer
                  (graphdriver.String_
                     (driver (daemon (fixture.container "app" "none" false
                                        runconfig.ProcessIsolated [] ["app"])))
                     ["app"])
                  (image.ID fixture.app) (errorString "layer is busy"))).
Proof.
  assert (H0 : recognised
                 (runconfig.NetworkMode
                    (hostConfig (fixture.container "app" "none" false
                                   runconfig.ProcessIsolated [] ["app"]))))
    by (left; reflexivity).
  split; [exact H0|].
  refine (populateCommand_release_fails fixture.cc 1 []
            (fixture.container "app" "none" false runconfig.ProcessIsolated
               [] ["app"])
            [] (Some fixture.app) [] fixture.app [] [] [] ["app"] ["app"]
            "C:\layers\app" (errorString "layer is busy")
            H0 _ _ _ _ _ _).
  - reflexivity.
  - constructor.
  - constructor.
  - reflexivity.
  - reflexivity.
  - simpl. lia.
Defined.

(** When the walk ends, having resolved the images of [l], and the
    metadata lookup of the container fails, [populateCommand] returns
    [ErrorCodeGetLayerMetadata] with the cause, whatever mapping came with
    the error; every layer has been released and the container is as it
    was. *)
Theorem populateCommand_metadata_fails
    {D : Type} (cc : CommonContainer D) (fuel : nat) (d : D)
    (c : Container D) (env : list string)
    (leaf : option image.Image) (l : list image.Image)
    (paths : list string) (evs : list Event) (d1 d2 : D)
    (m : gmap string string) (e : error) :
  recognised (runconfig.NetworkMode (hostConfig c)) ->
  graph.Get (graph_ (daemon c)) (ImageID c) = (leaf, None) ->
  (Chain (graph_ (daemon c)) leaf l
   \/ exists e0, BrokenChain (graph_ (daemon c)) leaf l e0) ->
  Resolves (driver (daemon c)) d l paths evs d1 ->
  graphdriver.GetMetadata (driver (daemon c)) d1 (ID c) = (d2, (m, Some e)) ->
  length l <= fuel ->
  populateCommand cc fuel d c env
  = Returned d2 (evs ++ [EvGetMetadata (ID c) (Some e)]) c
      (Some (ErrorCodeGetLayerMetadata e))
  /\ forall id, acquired id evs = released id evs.
Proof.
  intros Hr Hget Hchain HR Hm Hfuel.
  assert (Hvis : Visits (graph_ (daemon c)) leaf None l).
  { destruct Hchain as [H|[e0 H]];
      [eapply Chain_Visits | eapply BrokenChain_Visits]; eassumption. }
  split; [|apply Paired_balanced; eapply Resolves_Paired, HR].
  rewrite (populateCommand_recognised cc _ _ _ _ Hr).
  unfold afterDispatch. rewrite Hget.
  rewrite (loop_complete _ _ _ _ Hvis fuel d [] [] paths evs d1 HR Hfuel).
  rewrite Hm. reflexivity.
Qed.

Lemma populateCommand_metadata_fails_witness :
  recognised
    (runconfig.NetworkMode
       (hostConfig (metafixture.baseContainer
                      (∅, Some (errorString "no metadata")))))
  /\ populateCommand fixture.cc 1 []
       (metafixture.baseContainer (∅, Some (errorString "no metadata"))) []
     = Returned []
         ([EvGet "base" "C:\layers\base" None; EvPut "base" None]
          ++ [EvGetMetadata
                (ID (metafixture.baseContainer
                       (∅, Some (errorString "no metadata"))))
                (Some (errorString "no metadata"))])
         (metafixture.baseContainer (∅, Some (errorString "no metadata")))
         (Some (ErrorCodeGetLayerMetadata (errorString "no metadata"))).
Proof.
  assert (H0 : recognised
                 (runconfig.NetworkMode
                    (hostConfig (metafixture.baseContainer
                                   (∅, Some (errorString "no metadata"))))))
    by (right; left; reflexivity).
  split; [exact H0|].
  refine (proj1 (populateCommand_metadata_fails fixture.cc 1 []
            (metafixture.baseContainer (∅, Some (errorString "no metadata"))) []
            (Some fixture.base) [fixture.base] ["C:\layers\base"]
            [EvGet "base" "C:\layers\base" None; EvPut "base" None] [] []
            ∅ (errorString "no metadata") H0 _ _ _ _ _)).
  - reflexivity.
  - left. eapply Chain_link; [reflexivity | constructor].
  - eapply (Resolves_cons _ _ fixture.base); [reflexivity | reflexivity|].
    constructor.
  - reflexivity.
  - simpl. lia.
Defined.

Lemma loop_return_context {D} (dm : Daemon D) fuel :
  forall d log i err acc d' log' e,
    populateCommand_loop fuel dm d log i err acc = LoopReturn d' log' e ->
    exists id cause,
      e = ErrorCodeGetLayer (graphdriver.String_ (driver dm) d') id cause
      \/ e = ErrorCodePutLayer (graphdriver.String_ (driver dm) d') id cause.
Proof.
  induction fuel as [|fuel IH]; intros d log i err acc d' log' e H.
  - destruct i as [img|], err as [e0|]; simpl in H; discriminate.
  - destruct i as [img|], err as [e0|]; simpl in H; try discriminate.
    destruct (graphdriver.Get (driver dm) d (image.ID img) "")
      as [d1 [lp [e1|]]].
    { injection H as <- <- <-. eauto. }
    destruct (graphdriver.Put (driver dm) d1 (image.ID img)) as [d2 [e1|]].
    { injection H as <- <- <-. eauto. }
    destruct (graph.GetParent (graph_ dm) img) as [i' err'].
    eapply IH, H.
Qed.

(** Every error [populateCommand] returns is one of its five error codes,
    each with its context: the network-mode string of the container; the
    image identifier of the container and the graph's error; the driver's
    name (as the driver gives it in the state the run leaves) with a layer
    identifier and the driver's error; the metadata lookup's error.  An
    error of a collaborator is never returned bare. *)
Theorem populateCommand_errors_carry_context
    {D : Type} (cc : CommonContainer D) (fuel : nat) (d : D)
    (c : Container D) (env : list string)
    (d' : D) (log : list Event) (c' : Container D) (e : error) :
  populateCommand cc fuel d c env = Returned d' log c' (Some e) ->
  e = ErrorCodeInvalidNetworkMode (runconfig.NetworkMode (hostConfig c))
  \/ (exists cause, e = ErrorCodeGetGraph (ImageID c) cause)
  \/ (exists id cause,
        e = ErrorCodeGetLayer (graphdriver.String_ (driver (daemon c)) d')
              id cause)
  \/ (exists id cause,
        e = ErrorCodePutLayer (graphdriver.String_ (driver (daemon c)) d')
              id cause)
  \/ (exists cause, e = ErrorCodeGetLayerMetadata cause).
Proof.
  intros Hrun.
  destruct (beforeColon_cases (runconfig.NetworkMode (hostConfig c)))
    as [Hr|Hn].
  - assert (Hr' : recognised (runconfig.NetworkMode (hostConfig c)))
      by (unfold recognised; tauto).
    rewrite (populateCommand_recognised cc _ _ _ _ Hr') in Hrun.
    unfold afterDispatch in Hrun.
    destruct (graph.Get _ _) as [img [e0|]].
    { injection Hrun as <- <- <- <-. right; left. eauto. }
    destruct (populateCommand_loop _ _ _ _ _ _ _) as [d1 log1 paths1|d1 log1 e1|]
      eqn:Hloop; [| |discriminate].
    + destruct (graphdriver.GetMetadata _ _ _) as [d2 [m [e0|]]];
        [|discriminate].
      injection Hrun as <- <- <- <-. right; right; right; right. eauto.
    + injection Hrun as <- <- <- <-.
      apply loop_return_context in Hloop as (id & cause & [->| ->]);
        [right; right; left | right; right; right; left]; eauto.
  - rewrite (populateCommand_unrecognised cc _ _ _ _ Hn) in Hrun.
    injection Hrun as <- <- <- <-. left. reflexivity.
Qed.

Lemma populateCommand_errors_carry_context_witness :
  populateCommand fixture.cc 3 [] fixture.appMissingLayer []
  = Returned []
      [EvGet "app" "C:\layers\app" None; EvPut "app" None;
       EvGet "runtime" "" (Some (errorString "layer is missing"))]
      fixture.appMissingLayer
      (Some (ErrorCodeGetLayer "windowsfilter" "runtime"
               (errorString "layer is missing")))
  /\ (ErrorCodeGetLayer "windowsfilter" "runtime" (errorString "layer is missing")
      = ErrorCodeInvalidNetworkMode
          (runconfig.NetworkMode (hostConfig fixture.appMissingLayer))
      \/ (exists cause,
            ErrorCodeGetLayer "windowsfilter" "runtime"
              (errorString "layer is missing")
            = ErrorCodeGetGraph (ImageID fixture.appMissingLayer) cause)
      \/ (exists id cause,
            ErrorCodeGetLayer "windowsfilter" "runtime"
              (errorString "layer is missing")
            = ErrorCodeGetLayer
                (graphdriver.String_ (driver (daemon fixture.appMissingLayer)) [])
                id cause)
      \/ (exists id cause,
            ErrorCodeGetLayer "windowsfilter" "runtime"
              (errorString "layer is missing")
            = ErrorCodePutLayer
                (graphdriver.String_ (driver (daemon fixture.appMissingLayer)) [])
                id cause)
      \/ (exists cause,
            ErrorCodeGetLayer "windowsfilter" "runtime"
              (errorString "layer is missing")
            = ErrorCodeGetLayerMetadata cause)).
Proof.
  assert (H : populateCommand fixture.cc 3 [] fixture.appMissingLayer []
              = Returned []
                  [EvGet "app" "C:\layers\app" None; EvPut "app" None;
                   EvGet "runtime" "" (Some (errorString "layer is missing"))]
                  fixture.appMissingLayer
                  (Some (ErrorCodeGetLayer "windowsfilter" "runtime"
                           (errorString "layer is missing"))))
    by (vm_compute; reflexivity).
  split; [exact H|].
  exact (populateCommand_errors_carry_context fixture.cc 3 []
           fixture.appMissingLayer [] _ _ _ _ H).
Defined.

(** ** [populateCommand]: graphs with a cycle. *)

Lemma loop_closed_set {D} (dm : Daemon D) (S : image.Image -> Prop) :
  (forall img, S img ->
     exists p, graph.GetParent (graph_ dm) img = (Some p, None) /\ S p) ->
  (forall img d0, S img ->
     exists d1 lp d2,
       graphdriver.Get (driver dm) d0 (image.ID img) "" = (d1, (lp, None))
       /\ graphdriver.Put (driver dm) d1 (image.ID img) = (d2, None)) ->
  forall fuel d log acc img,
    S img ->
    populateCommand_loop fuel dm d log (Some img) None acc = LoopOutOfFuel.
Proof.
  intros Hclosed Hdrv. induction fuel as [|fuel IH]; intros d log acc img HS;
    [reflexivity|].
  simpl. destruct (Hdrv img d HS) as (d1 & lp & d2 & -> & ->).
  destruct (Hclosed img HS) as (p & -> & HSp). apply IH, HSp.
Qed.

(** When the container's image lies in a set of images that is closed
    under the parent fetch (a cycle of any length, or a chain leading into
    one), with a recognised mode and a driver that does not fail on these
    images, [populateCommand] is still running whatever the fuel: the walk
    has no cycle detection. *)
Theorem populateCommand_diverges_on_cycles
    {D : Type} (cc : CommonContainer D) (d : D)
    (c : Container D) (env : list string)
    (S : image.Image -> Prop) (leaf : image.Image) :
  recognised (runconfig.NetworkMode (hostConfig c)) ->
  graph.Get (graph_ (daemon c)) (ImageID c) = (Some leaf, None) ->
  S leaf ->
  (forall img, S img ->
     exists p, graph.GetParent (graph_ (daemon c)) img = (Some p, None) /\ S p) ->
  (forall img d0, S img ->
     exists d1 lp d2,
       graphdriver.Get (driver (daemon c)) d0 (image.ID img) "" = (d1, (lp, None))
       /\ graphdriver.Put (driver (daemon c)) d1 (image.ID img) = (d2, None)) ->
  forall fuel, populateCommand cc fuel d c env = OutOfFuel.
Proof.
  intros Hr Hget HS Hclosed Hdrv fuel.
  rewrite (populateCommand_recognised cc _ _ _ _ Hr).
  unfold afterDispatch. rewrite Hget.
  by rewrite (loop_closed_set _ S Hclosed Hdrv fuel d [] [] leaf HS).
Qed.

Lemma populateCommand_diverges_on_cycles_witness :
  recognised (runconfig.NetworkMode (hostConfig cyclefixture.pingContainer))
  /\ graph.Get (graph_ (daemon cyclefixture.pingContainer))
       (ImageID cyclefixture.pingContainer) = (Some cyclefixture.ping, None)
  /\ forall fuel,
       populateCommand fixture.cc fuel [] cyclefixture.pingContainer []
       = OutOfFuel.
Proof.
  assert (H0 : recognised
                 (runconfig.NetworkMode (hostConfig cyclefixture.pingContainer)))
    by (left; reflexivity).
  assert (H1 : graph.Get (graph_ (daemon cyclefixture.pingContainer))
                 (ImageID cyclefixture.pingContainer)
               = (Some cyclefixture.ping, None)) by reflexivity.
  split; [exact H0|]. split; [exact H1|].
  refine (populateCommand_diverges_on_cycles fixture.cc []
            cyclefixture.pingContainer []
            (fun img => img = cyclefixture.ping \/ img = cyclefixture.pong)
            cyclefixture.ping H0 H1 _ _ _).
  - left. reflexivity.
  - intros img [->| ->].
    + exists cyclefixture.pong. split; [reflexivity | right; reflexivity].
    + exists cyclefixture.ping. split; [reflexivity | left; reflexivity].
  - intros img d0 [->| ->]; eexists _, _, _; split; reflexivity.
Defined.

(** ** [populateCommand]: what a run without error stores. *)

Lemma populateCommand_success_spec
    {D : Type} (cc : CommonContainer D) fuel d (c : Container D) env d' log c' :
  populateCommand cc fuel d c env = Returned d' log c' None ->
  exists folder paths,
    c' = withCommand
           (Some (launchSpec cc c env (networkFor c) folder paths)) c.
Proof.
  intros Hrun.
  destruct (beforeColon_cases (runconfig.NetworkMode (hostConfig c)))
    as [Hr|Hn];
    [| rewrite (populateCommand_unrecognised cc _ _ _ _ Hn) in Hrun;
       discriminate].
  assert (Hr' : recognised (runconfig.NetworkMode (hostConfig c)))
    by (unfold recognised; tauto).
  rewrite (populateCommand_recognised cc _ _ _ _ Hr') in Hrun.
  unfold afterDispatch in Hrun.
  destruct (graph.Get _ _) as [img [e0|]]; [discriminate|].
  destruct (populateCommand_loop _ _ _ _ _ _ _) as [d1 log1 paths1|d1 log1 e1|];
    try discriminate.
  destruct (graphdriver.GetMetadata _ _ _) as [d2 [m [e0|]]]; [discriminate|].
  injection Hrun as <- <- <-. eauto.
Qed.

(** Whatever the graph and the driver did, the command a run without error
    stores takes from the container, as it was before the run: its
    identifier, root path, working directory, labels, hostname, CPU
    shares; the process to run with the [env] argument as environment;
    [FirstStart] as the negation of [HasBeenStartedBefore]; [Isolated] as
    the Hyper-V test of the isolation level; and the fixed init path. *)
Theorem populateCommand_stored_command
    {D : Type} (cc : CommonContainer D) (fuel : nat) (d : D)
    (c : Container D) (env : list string)
    (d' : D) (log : list Event) (c' : Container D) :
  populateCommand cc fuel d c env = Returned d' log c' None ->
  exists cmd,
    command c' = Some cmd
    /\ execdriver.ID cmd = ID c
    /\ execdriver.Rootfs cmd = rootfsPath cc c
    /\ execdriver.InitPath cmd = "/.dockerinit"
    /\ execdriver.WorkingDir cmd = runconfig.WorkingDir (Config c)
    /\ execdriver.MountLabel cmd = getMountLabel cc c
    /\ execdriver.ProcessLabel cmd = getProcessLabel cc c
    /\ execdriver.Hostname cmd = runconfig.Hostname (Config c)
    /\ execdriver.Resources_ cmd
       = Some {| execdriver.CPUShares := runconfig.CPUShares (hostConfig c) |}
    /\ execdriver.ProcessConfig_ cmd
       = {| execdriver.Privileged := runconfig.Privileged (hostConfig c);
            execdriver.Entrypoint := Path c;
            execdriver.Arguments_ := Args c;
            execdriver.Tty := runconfig.Tty (Config c);
            execdriver.User := runconfig.User (Config c);
            execdriver.ConsoleSize := runconfig.ConsoleSize (hostConfig c);
            execdriver.Env := env |}
    /\ execdriver.FirstStart cmd = negb (HasBeenStartedBefore c)
    /\ execdriver.Isolated cmd
       = runconfig.IsHyperV (runconfig.Isolation (hostConfig c)).
Proof.
  intros Hrun.
  apply populateCommand_success_spec in Hrun as (folder & paths & ->).
  eexists. split; [reflexivity|]. repeat split.
Qed.

Lemma populateCommand_stored_command_witness :
  populateCommand fixture.cc 3 [] fixture.appContainer ["A=1"]
  = Returned []
      [EvGet "app" "C:\layers\app" None; EvPut "app" None;
       EvGet "runtime" "C:\layers\runtime" None; EvPut "runtime" None;
       EvGet "base" "C:\layers\base" None; EvPut "base" None;
       EvGetMetadata "c1" None]
      (withCommand
         (Some (launchSpec fixture.cc fixture.appContainer ["A=1"]
                  (networkFor fixture.appContainer) "C:\containers\c1"
                  ["C:\layers\app"; "C:\layers\runtime"; "C:\layers\base"]))
         fixture.appContainer)
      None
  /\ exists cmd,
       Some (launchSpec fixture.cc fixture.appContainer ["A=1"]
               (networkFor fixture.appContainer) "C:\containers\c1"
               ["C:\layers\app"; "C:\layers\runtime"; "C:\layers\base"])
       = Some cmd
       /\ execdriver.FirstStart cmd = true
       /\ execdriver.Isolated cmd = false.
Proof.
  assert (H : populateCommand fixture.cc 3 [] fixture.appContainer ["A=1"]
              = Returned []
                  [EvGet "app" "C:\layers\app" None; EvPut "app" None;
                   EvGet "runtime" "C:\layers\runtime" None; EvPut "runtime" None;
                   EvGet "base" "C:\layers\base" None; EvPut "base" None;
                   EvGetMetadata "c1" None]
                  (withCommand
                     (Some (launchSpec fixture.cc fixture.appContainer ["A=1"]
                              (networkFor fixture.appContainer)
                              "C:\containers\c1"
                              ["C:\layers\app"; "C:\layers\runtime";
                               "C:\layers\base"]))
                     fixture.appContainer)
                  None) by (vm_compute; reflexivity).
  split; [exact H|].
  destruct (populateCommand_stored_command fixture.cc 3 [] fixture.appContainer
              ["A=1"] _ _ _ H)
    as (cmd & Hc & _ & _ & _ & _ & _ & _ & _ & _ & _ & Hf & Hi).
  exists cmd. split; [exact Hc|]. split; [exact Hf | exact Hi].
Defined.

(** The environment of the launched process, when the environment handed
    to [populateCommand] is the one [createDaemonEnvironment] builds from
    the links [setupLinkedContainers] reports or from any other: it is the
    configured environment of the container, links add nothing; and the
    whole run is the same whatever the links. *)
Theorem linked_environment_is_container_environment
    {D : Type} (cc : CommonContainer D) (fuel : nat) (d : D)
    (c : Container D) (linkedEnv : list string) :
  populateCommand cc fuel d c (createDaemonEnvironment c linkedEnv)
  = populateCommand cc fuel d c
      (createDaemonEnvironment c (setupLinkedContainers c).1)
  /\ forall d' log c',
       populateCommand cc fuel d c (createDaemonEnvironment c linkedEnv)
       = Returned d' log c' None ->
       exists cmd,
         command c' = Some cmd
         /\ execdriver.Env (execdriver.ProcessConfig_ cmd)
            = runconfig.Env (Config c).
Proof.
  split; [reflexivity|]. intros d' log c' Hrun.
  apply populateCommand_success_spec in Hrun as (folder & paths & ->).
  eexists. split; reflexivity.
Qed.

Lemma linked_environment_is_container_environment_witness :
  populateCommand fixture.cc 0 []
    (fixture.container "" "none" false runconfig.ProcessIsolated [] [])
    (createDaemonEnvironment
       (fixture.container "" "none" false runconfig.ProcessIsolated [] [])
       ["LINK=db"])
  = Returned [] [EvGetMetadata "c1" None]
      (withCommand
         (Some (launchSpec fixture.cc
                  (fixture.container "" "none" false runconfig.ProcessIsolated
                     [] [])
                  ["A=1"] {| execdriver.Interface := None |}
                  "C:\containers\c1" []))
         (fixture.container "" "none" false runconfig.ProcessIsolated [] []))
      None
  /\ exists cmd,
       Some (launchSpec fixture.cc
               (fixture.container "" "none" false runconfig.ProcessIsolated
                  [] [])
               ["A=1"] {| execdriver.Interface := None |}
               "C:\containers\c1" [])
       = Some cmd
       /\ execdriver.Env (execdriver.ProcessConfig_ cmd) = ["A=1"].
Proof.
  assert (H : populateCommand fixture.cc 0 []
                (fixture.container "" "none" false runconfig.ProcessIsolated
                   [] [])
                (createDaemonEnvironment
                   (fixture.container "" "none" false runconfig.ProcessIsolated
                      [] [])
                   ["LINK=db"])
              = Returned [] [EvGetMetadata "c1" None]
                  (withCommand
                     (Some (launchSpec fixture.cc
                              (fixture.container "" "none" false
                                 runconfig.ProcessIsolated [] [])
                              ["A=1"] {| execdriver.Interface := None |}
                              "C:\containers\c1" []))
                     (fixture.container "" "none" false
                        runconfig.ProcessIsolated [] []))
                  None) by (vm_compute; reflexivity).
  split; [exact H|].
  exact (proj2 (linked_environment_is_container_environment fixture.cc 0 []
                  (fixture.container "" "none" false runconfig.ProcessIsolated
                     [] [])
                  ["LINK=db"]) _ _ _ H).
Defined.

(** When the walk ends, having resolved the images of [l] to [paths], and
    the metadata lookup succeeds with the mapping [m], [populateCommand]
    returns no error and stores the launch specification with these paths
    and, as layer folder, the [dir] entry of [m]; a mapping without [dir]
    entry is no error, the layer folder is then the empty string. *)
Theorem populateCommand_layer_folder
    {D : Type} (cc : CommonContainer D) (fuel : nat) (d : D)
    (c : Container D) (env : list string)
    (leaf : option image.Image) (l : list image.Image)
    (paths : list string) (evs : list Event) (d1 d2 : D)
    (m : gmap string string) :
  recognised (runconfig.NetworkMode (hostConfig c)) ->
  graph.Get (graph_ (daemon c)) (ImageID c) = (leaf, None) ->
  (Chain (graph_ (daemon c)) leaf l
   \/ exists e0, BrokenChain (graph_ (daemon c)) leaf l e0) ->
  Resolves (driver (daemon c)) d l paths evs d1 ->
  graphdriver.GetMetadata (driver (daemon c)) d1 (ID c) = (d2, (m, None)) ->
  length l <= fuel ->
  exists folder,
    populateCommand cc fuel d c env
    = Returned d2 (evs ++ [EvGetMetadata (ID c) None])
        (withCommand
           (Some (launchSpec cc c env (networkFor c) folder paths)) c)
        None
    /\ (forall p, m !! "dir" = Some p -> folder = p)
    /\ (m !! "dir" = None -> folder = "").
Proof.
  intros Hr Hget Hchain HR Hm Hfuel.
  assert (Hvis : Visits (graph_ (daemon c)) leaf None l).
  { destruct Hchain as [H|[e0 H]];
      [eapply Chain_Visits | eapply BrokenChain_Visits]; eassumption. }
  exists (default "" (m !! "dir")). split; [|split].
  - rewrite (populateCommand_recognised cc _ _ _ _ Hr).
    unfold afterDispatch. rewrite Hget.
    rewrite (loop_complete _ _ _ _ Hvis fuel d [] [] paths evs d1 HR Hfuel).
    rewrite Hm. reflexivity.
  - intros p ->. reflexivity.
  - intros ->. reflexivity.
Qed.

Lemma populateCommand_layer_folder_witness :
  recognised
    (runconfig.NetworkMode (hostConfig (metafixture.baseContainer (∅, None))))
  /\ (∅ : gmap string string) !! "dir" = None
  /\ exists folder,
       populateCommand fixture.cc 1 [] (metafixture.baseContainer (∅, None)) []
       = Returned []
           ([EvGet "base" "C:\layers\base" None; EvPut "base" None]
            ++ [EvGetMetadata (ID (metafixture.baseContainer (∅, None))) None])
           (withCommand
              (Some (launchSpec fixture.cc (metafixture.baseContainer (∅, None))
                       [] (networkFor (metafixture.baseContainer (∅, None)))
                       folder ["C:\layers\base"]))
              (metafixture.baseContainer (∅, None)))
           None
       /\ folder = "".
Proof.
  assert (H0 : recognised
                 (runconfig.NetworkMode
                    (hostConfig (metafixture.baseContainer (∅, None)))))
    by (right; left; reflexivity).
  assert (Hdir : (∅ : gmap string string) !! "dir" = None) by reflexivity.
  split; [exact H0|]. split; [exact Hdir|].
  assert (H2 : Chain (graph_ (daemon (metafixture.baseContainer (∅, None))))
                 (Some fixture.base) [fixture.base]
               \/ exists e0,
                   BrokenChain
                     (graph_ (daemon (metafixture.baseContainer (∅, None))))
                     (Some fixture.base) [fixture.base] e0).
  { left. eapply Chain_link; [reflexivity | constructor]. }
  assert (H3 : Resolves (driver (daemon (metafixture.baseContainer (∅, None))))
                 [] [fixture.base] ["C:\layers\base"]
                 [EvGet "base" "C:\layers\base" None; EvPut "base" None] []).
  { eapply (Resolves_cons _ _ fixture.base); [reflexivity | reflexivity|].
    constructor. }
  assert (H5 : 1 <= 1) by lia.
  destruct (populateCommand_layer_folder fixture.cc 1 []
              (metafixture.baseContainer (∅, None)) []
              (Some fixture.base) [fixture.base] ["C:\layers\base"]
              [EvGet "base" "C:\layers\base" None; EvPut "base" None] [] []
              ∅ H0 eq_refl H2 H3 eq_refl H5)
    as (folder & Hrun & _ & Hnone).
  exists folder. split; [exact Hrun | exact (Hnone Hdir)].
Defined.

(** ** [populateCommand]: how often the driver is called. *)

Lemma Resolves_counts {D} (drv : graphdriver.Driver D) d l paths evs d' :
  Resolves drv d l paths evs d' ->
  length evs = 2 * length l
  /\ forall id,
       acquired id evs = occurrences id l /\ released id evs = occurrences id l.
Proof.
  induction 1 as [|d img l lp d1 d2 paths evs d3 _ _ _ [IHlen IH]].
  - split; [reflexivity | intros id; split; reflexivity].
  - split; [simpl; lia|]. intros id. destruct (IH id) as [IHa IHr].
    unfold occurrences in *. rewrite filter_cons. simpl.
    destruct (decide (image.ID img = id)); simpl; lia.
Qed.

(** A run without error over the images [l] of the walk has called the
    driver [2 * length l + 1] times: for every identifier, one acquire and
    one release per image of [l] that bears it, so none for a layer that
    is not in the chain, and then the one metadata lookup. *)
Theorem populateCommand_one_round_trip_per_layer
    {D : Type} (cc : CommonContainer D) (fuel : nat) (d : D)
    (c : Container D) (env : list string)
    (leaf : option image.Image) (l : list image.Image)
    (d' : D) (log : list Event) (c' : Container D) :
  graph.Get (graph_ (daemon c)) (ImageID c) = (leaf, None) ->
  (Chain (graph_ (daemon c)) leaf l
   \/ exists e0, BrokenChain (graph_ (daemon c)) leaf l e0) ->
  populateCommand cc fuel d c env = Returned d' log c' None ->
  length log = 2 * length l + 1
  /\ last log = Some (EvGetMetadata (ID c) None)
  /\ forall id,
       acquired id log = occurrences id l /\ released id log = occurrences id l.
Proof.
  intros Hget Hchain Hrun.
  assert (Hvis : Visits (graph_ (daemon c)) leaf None l).
  { destruct Hchain as [H|[e0 H]];
      [eapply Chain_Visits | eapply BrokenChain_Visits]; eassumption. }
  destruct (beforeColon_cases (runconfig.NetworkMode (hostConfig c)))
    as [Hr|Hn];
    [| rewrite (populateCommand_unrecognised cc _ _ _ _ Hn) in Hrun;
       discriminate].
  assert (Hr' : recognised (runconfig.NetworkMode (hostConfig c)))
    by (unfold recognised; tauto).
  rewrite (populateCommand_recognised cc _ _ _ _ Hr') in Hrun.
  unfold afterDispatch in Hrun. rewrite Hget in Hrun.
  destruct (populateCommand_loop _ _ _ _ _ _ _) as [d1 log1 paths1|d1 log1 e1|]
    eqn:Hloop; try discriminate.
  destruct (graphdriver.GetMetadata _ _ _) as [d2 [m [e0|]]]; [discriminate|].
  injection Hrun as <- <- <-.
  apply loop_exit_inv in Hloop as (l' & paths & evs & HV & HR & -> & _).
  rewrite <- (Visits_fun _ _ _ _ Hvis _ HV) in HR.
  destruct (Resolves_counts _ _ _ _ _ _ HR) as [Hlen Hcount].
  simpl. split; [rewrite length_app; simpl; lia|].
  split; [apply last_snoc|].
  intros id. destruct (Hcount id) as [Ha Hrel].
  rewrite acquired_app, released_app. simpl. lia.
Qed.

Lemma populateCommand_one_round_trip_per_layer_witness :
  graph.Get (graph_ (daemon fixture.appContainer))
    (ImageID fixture.appContainer) = (Some fixture.app, None)
  /\ populateCommand fixture.cc 3 [] fixture.appContainer []
     = Returned []
         [EvGet "app" "C:\layers\app" None; EvPut "app" None;
          EvGet "runtime" "C:\layers\runtime" None; EvPut "runtime" None;
          EvGet "base" "C:\layers\base" None; EvPut "base" None;
          EvGetMetadata "c1" None]
         (withCommand
            (Some (launchSpec fixture.cc fixture.appContainer []
                     (networkFor fixture.appContainer) "C:\containers\c1"
                     ["C:\layers\app"; "C:\layers\runtime"; "C:\layers\base"]))
            fixture.appContainer)
         None
  /\ forall id,
       acquired id
         [EvGet "app" "C:\layers\app" None; EvPut "app" None;
          EvGet "runtime" "C:\layers\runtime" None; EvPut "runtime" None;
          EvGet "base" "C:\layers\base" None; EvPut "base" None;
          EvGetMetadata "c1" None]
       = occurrences id [fixture.app; fixture.runtime; fixture.base]
       /\ released id
            [EvGet "app" "C:\layers\app" None; EvPut "app" None;
             EvGet "runtime" "C:\layers\runtime" None; EvPut "runtime" None;
             EvGet "base" "C:\layers\base" None; EvPut "base" None;
             EvGetMetadata "c1" None]
          = occurrences id [fixture.app; fixture.runtime; fixture.base].
Proof.
  assert (H1 : graph.Get (graph_ (daemon fixture.appContainer))
                 (ImageID fixture.appContainer) = (Some fixture.app, None))
    by reflexivity.
  assert (H2 : Chain (graph_ (daemon fixture.appContainer)) (Some fixture.app)
                 [fixture.app; fixture.runtime; fixture.base]
               \/ exists e0,
                   BrokenChain (graph_ (daemon fixture.appContainer))
                     (Some fixture.app)
                     [fixture.app; fixture.runtime; fixture.base] e0).
  { left. eapply Chain_link; [reflexivity|].
    eapply Chain_link; [reflexivity|].
    eapply Chain_link; [reflexivity|]. constructor. }
  assert (H3 : populateCommand fixture.cc 3 [] fixture.appContainer []
               = Returned []
                   [EvGet "app" "C:\layers\app" None; EvPut "app" None;
                    EvGet "runtime" "C:\layers\runtime" None;
                    EvPut "runtime" None;
                    EvGet "base" "C:\layers\base" None; EvPut "base" None;
                    EvGetMetadata "c1" None]
                   (withCommand
                      (Some (launchSpec fixture.cc fixture.appContainer []
                               (networkFor fixture.appContainer)
                               "C:\containers\c1"
                               ["C:\layers\app"; "C:\layers\runtime";
                                "C:\layers\base"]))
                      fixture.appContainer)
                   None) by (vm_compute; reflexivity).
  split; [exact H1|]. split; [exact H3|].
  exact (proj2 (proj2
    (populateCommand_one_round_trip_per_layer fixture.cc 3 []
       fixture.appContainer [] _ _ _ _ _ H1 H2 H3))).
Defined.

(** ** [populateCommand]: the detail after the colon. *)

(** Of a recognised network mode only the segment before the first colon
    counts, and of that only whether it is [none]: two recognised modes
    that agree on this give the same result, all else equal (the root path
    and the labels that the container's methods supply included). *)
Theorem populateCommand_mode_detail_ignored
    {D : Type} (cc : CommonContainer D) (fuel : nat) (d : D)
    (c : Container D) (env : list string) (m1 m2 : string) :
  recognised m1 ->
  recognised m2 ->
  (beforeColon m1 = "none" <-> beforeColon m2 = "none") ->
  rootfsPath cc (setNetworkMode m1 c) = rootfsPath cc (setNetworkMode m2 c) ->
  getMountLabel cc (setNetworkMode m1 c) = getMountLabel cc (setNetworkMode m2 c) ->
  getProcessLabel cc (setNetworkMode m1 c)
  = getProcessLabel cc (setNetworkMode m2 c) ->
  sameResult (populateCommand cc fuel d (setNetworkMode m1 c) env)
             (populateCommand cc fuel d (setNetworkMode m2 c) env).
Proof.
  intros Hr1 Hr2 Hnone Hroot Hmount Hproc.
  rewrite (populateCommand_recognised cc fuel d (setNetworkMode m1 c) env)
    by exact Hr1.
  rewrite (populateCommand_recognised cc fuel d (setNetworkMode m2 c) env)
    by exact Hr2.
  unfold afterDispatch. simpl.
  destruct (graph.Get _ _) as [img [e|]]; [simpl; tauto|].
  destruct (populateCommand_loop _ _ _ _ _ _ _) as [d1 log1 paths1|d1 log1 e1|];
    simpl; [|tauto|tauto].
  destruct (graphdriver.GetMetadata _ _ _) as [d2 [m [e|]]]; simpl; [tauto|].
  repeat split. unfold launchSpec, networkFor. simpl.
  rewrite Hroot, Hmount, Hproc.
  destruct (decide (beforeColon m1 = "none")) as [H1|H1],
           (decide (beforeColon m2 = "none")) as [H2|H2];
    try reflexivity; tauto.
Qed.

Lemma populateCommand_mode_detail_ignored_witness :
  recognised "default:bridge"
  /\ recognised ""
  /\ (beforeColon "default:bridge" = "none" <-> beforeColon "" = "none")
  /\ sameResult
       (populateCommand fixture.cc 3 []
          (setNetworkMode "default:bridge" fixture.appContainer) [])
       (populateCommand fixture.cc 3 []
          (setNetworkMode "" fixture.appContainer) []).
Proof.
  assert (H1 : recognised "default:bridge") by (right; left; reflexivity).
  assert (H2 : recognised "") by (right; right; reflexivity).
  assert (H3 : beforeColon "default:bridge" = "none" <-> beforeColon "" = "none")
    by (split; intros H; discriminate H).
  split; [exact H1|]. split; [exact H2|]. split; [exact H3|].
  exact (populateCommand_mode_detail_ignored fixture.cc 3 []
           fixture.appContainer [] "default:bridge" "" H1 H2 H3
           eq_refl eq_refl eq_refl).
Defined.

(** ** The lifecycle: a start followed by a cleanup. *)

(** A start preparation followed by a cleanup mounts and unmounts equally
    often, provided the mount leaves the container's isolation level as it
    is: a Hyper-V container sees neither call, any other sees the mount
    and then the unmount.  The cleanup unmounts also after a mount that
    failed: it does not look at the start's result. *)
Theorem start_then_cleanup_balanced
    {D : Type} (cc : CommonContainer D) (d : D) (c : Container D)
    (d1 d2 : D) (log1 log2 : list Event) (c1 c2 : Container D)
    (err : option error) :
  conditionalMountOnStart cc d c = (d1, log1, c1, err) ->
  conditionalUnmountOnCleanup cc d1 c1 = (d2, log2, c2) ->
  runconfig.Isolation (hostConfig c1) = runconfig.Isolation (hostConfig c) ->
  mounts (log1 ++ log2) = unmounts (log1 ++ log2)
  /\ (log1 ++ log2 = []
      \/ exists e1 e2 rest,
           log1 ++ log2 = EvMount e1 :: EvUnmount e2 :: rest
           /\ mounts rest = 0 /\ unmounts rest = 0).
Proof.
  unfold conditionalMountOnStart, conditionalUnmountOnCleanup.
  intros Hstart Hclean Hiso. rewrite Hiso in Hclean.
  destruct (runconfig.IsHyperV (runconfig.Isolation (hostConfig c))); simpl in *.
  - injection Hstart as <- <- <- <-. injection Hclean as <- <- <-.
    split; [reflexivity | left; reflexivity].
  - destruct (Mount cc d c) as [[d1' c1'] [e|]];
      injection Hstart as <- <- <- <-;
      destruct (Unmount cc _ _) as [[d2' c2'] [e'|]];
      injection Hclean as <- <- <-;
      (split; [reflexivity | right; eexists _, _, _; repeat split]).
Qed.

Lemma start_then_cleanup_balanced_witness :
  conditionalMountOnStart (fixture.methods true false) [] fixture.appContainer
  = ([], [EvMount (Some (errorString "mount failed"))], fixture.appContainer,
     Some (errorString "mount failed"))
  /\ conditionalUnmountOnCleanup (fixture.methods true false) []
       fixture.appContainer
     = ([], [EvUnmount None], fixture.appContainer)
  /\ mounts ([EvMount (Some (errorString "mount failed"))] ++ [EvUnmount None])
     = unmounts ([EvMount (Some (errorString "mount failed"))] ++ [EvUnmount None]).
Proof.
  assert (H1 : conditionalMountOnStart (fixture.methods true false) []
                 fixture.appContainer
               = ([], [EvMount (Some (errorString "mount failed"))],
                  fixture.appContainer, Some (errorString "mount failed")))
    by reflexivity.
  assert (H2 : conditionalUnmountOnCleanup (fixture.methods true false) []
                 fixture.appContainer
               = ([], [EvUnmount None], fixture.appContainer)) by reflexivity.
  split; [exact H1|]. split; [exact H2|].
  exact (proj1 (start_then_cleanup_balanced (fixture.methods true false) []
                  fixture.appContainer _ _ _ _ _ _ _ H1 H2 eq_refl)).
Defined.
